(** * Query construction of the Elasticsearch query engine ([engine.py])

    A shallow embedding of [engine.py] and the properties of its query
    builders.  The embedding follows Python 3 semantics:

    - Python values are the data the engine handles and sends as a JSON
      body: [None], booleans, integers, strings, lists and dicts.  Dicts
      keep insertion order, so they are association lists; floating-point
      numbers are not part of the model.  A string is a sequence of code
      points below 256, one [ascii] each.
    - Exceptions are the [Raise] outcomes of an error monad.
    - A call binds positional and keyword arguments to the parameters of
      the callee as CPython does, including its [TypeError]s.
    - Instances of the builder classes carry no state; an instance is
      identified with its class.
    - [get_query] calls consume one stack frame each; [depth] is the
      number of frames left, and running out is a [RecursionError]. *)

From Stdlib Require Import ZArith String Ascii List Bool Lia DecimalString.
Import ListNotations.

Local Open Scope list_scope.
Local Open Scope string_scope.

#[local] Set Warnings "-register-all".

(** ** Python values *)

Inductive value : Type :=
| VNone
| VBool (b : bool)
| VInt (n : Z)
| VStr (s : string)
| VList (l : list value)
| VDict (d : list (value * value)).

(** A dict in insertion order: its [items()]. *)
Definition dict : Type := list (value * value).

(** The dict of a [**kwargs] parameter: keys are identifiers. *)
Definition kwargs : Type := list (string * value).

(** The same dict, with its keys as values. *)
Definition str_items (kw : kwargs) : dict :=
  map (fun kv => (VStr (fst kv), snd kv)) kw.

Definition kwargs_value (kw : kwargs) : value := VDict (str_items kw).

(** ** Exceptions and the error monad *)

Inductive type_error : Type :=
| MultipleValues (name : string)      (* got multiple values for argument *)
| TooManyPositional                   (* takes n positional arguments but m were given *)
| MissingArguments (names : list string) (* missing required positional arguments *)
| TakesNoArguments                    (* C() takes no arguments *)
| SuperNotInstance                    (* super(type, obj): obj must be an instance or subtype of type *)
| NotIterable                         (* object is not iterable / not a sequence *)
| Unhashable.                         (* unhashable type *)

Inductive exn : Type :=
| AssertionError (msg : string)
| TypeError (why : type_error)
| ValueError
| AttributeError (attr : string)
| NotImplementedError (msg : string)
| RecursionError.

Inductive result (A : Type) : Type :=
| Ret (a : A)
| Raise (e : exn).

Arguments Ret {A} a.
Arguments Raise {A} e.

Definition rbind {A B : Type} (m : result A) (k : A -> result B) : result B :=
  match m with
  | Ret a => k a
  | Raise e => Raise e
  end.

Notation "x <- m ;; k" := (rbind m (fun x => k))
  (at level 61, m at next level, right associativity).
Notation "m ;;; k" := (rbind m (fun _ => k))
  (at level 61, right associativity).

(** [assert cond, msg] *)
Definition py_assert (cond : bool) (msg : string) : result unit :=
  if cond then Ret tt else Raise (AssertionError msg).

(** ** [str] and [repr] *)

Definition chr (n : N) : ascii := ascii_of_N n.

Definition squote : ascii := chr 39.
Definition dquote : ascii := chr 34.
Definition backslash : ascii := chr 92.

Definition str_of_char (c : ascii) : string := String c EmptyString.

Fixpoint contains_char (c : ascii) (s : string) : bool :=
  match s with
  | EmptyString => false
  | String c' s' => Ascii.eqb c c' || contains_char c s'
  end.

Definition hex_digit (n : N) : ascii :=
  if (n <? 10)%N then chr (48 + n) else chr (87 + n).

(** A code point below 256 that [repr] prints as [\xhh]: the control
    characters and the Latin-1 code points that are not printable. *)
Definition unprintable (n : N) : bool :=
  (n <? 32)%N || ((127 <=? n)%N && (n <=? 160)%N) || (n =? 173)%N.

Definition repr_char (quote c : ascii) : string :=
  let n := N_of_ascii c in
  if Ascii.eqb c quote || Ascii.eqb c backslash then String backslash (str_of_char c)
  else if (n =? 9)%N then String backslash "t"
  else if (n =? 10)%N then String backslash "n"
  else if (n =? 13)%N then String backslash "r"
  else if unprintable n
       then String backslash (String "x" (String (hex_digit (n / 16)) (str_of_char (hex_digit (n mod 16)))))
  else str_of_char c.

Fixpoint repr_chars (quote : ascii) (s : string) : string :=
  match s with
  | EmptyString => EmptyString
  | String c s' => repr_char quote c ++ repr_chars quote s'
  end.

(** [repr] of a [str]: single quotes, unless the text has a single quote
    and no double quote. *)
Definition repr_str (s : string) : string :=
  let quote := if contains_char squote s && negb (contains_char dquote s)
               then dquote else squote in
  String quote (repr_chars quote s ++ str_of_char quote).

Fixpoint join (sep : string) (l : list string) : string :=
  match l with
  | [] => EmptyString
  | [x] => x
  | x :: l' => x ++ sep ++ join sep l'
  end.

Fixpoint py_repr (v : value) : string :=
  match v with
  | VNone => "None"
  | VBool b => if b then "True" else "False"
  | VInt n => NilZero.string_of_int (Z.to_int n)
  | VStr s => repr_str s
  | VList l => "[" ++ join ", " (map py_repr l) ++ "]"
  | VDict d =>
      "{" ++ join ", " (map (fun kv => match kv with
                                       | (k, x) => py_repr k ++ ": " ++ py_repr x
                                       end) d) ++ "}"
  end.

(** [str(v)], which is what [format] substitutes for [{}]. *)
Definition py_str (v : value) : string :=
  match v with
  | VStr s => s
  | _ => py_repr v
  end.

(** [bool(v)]: the truth value tested by [assert] and [if]. *)
Definition py_bool (v : value) : bool :=
  match v with
  | VNone => false
  | VBool b => b
  | VInt n => negb (n =? 0)%Z
  | VStr s => negb (s =? "")%string
  | VList l => match l with [] => false | _ => true end
  | VDict d => match d with [] => false | _ => true end
  end.

(** [v == s] for a string literal [s]. *)
Definition py_eq_str (v : value) (s : string) : bool :=
  match v with
  | VStr s' => (s' =? s)%string
  | _ => false
  end.

(** [str.lower]. *)
Definition lower_char (c : ascii) : ascii :=
  let n := N_of_ascii c in
  if ((65 <=? n)%N && (n <=? 90)%N)
     || ((192 <=? n)%N && (n <=? 222)%N && negb (n =? 215)%N)
  then chr (n + 32) else c.

Fixpoint py_lower (s : string) : string :=
  match s with
  | EmptyString => EmptyString
  | String c s' => String (lower_char c) (py_lower s')
  end.

(** ** Dicts *)

(** Lists and dicts cannot be keys. *)
Definition hashable (v : value) : bool :=
  match v with
  | VList _ | VDict _ => false
  | _ => true
  end.

(** Equality of keys: [True == 1] and [False == 0]. *)
Definition key_eqb (a b : value) : bool :=
  match a, b with
  | VNone, VNone => true
  | VStr s, VStr t => (s =? t)%string
  | VBool x, VBool y => Bool.eqb x y
  | VBool x, VInt n => (n =? (if x then 1 else 0))%Z
  | VInt n, VBool x => (n =? (if x then 1 else 0))%Z
  | VInt n, VInt m => (n =? m)%Z
  | _, _ => false
  end.

(** [d[k] = v]: an existing key keeps its place (and its spelling), a new
    key goes last. *)
Fixpoint dict_set (d : dict) (k v : value) : dict :=
  match d with
  | [] => [(k, v)]
  | (k', v') :: d' =>
      if key_eqb k' k then (k', v) :: d' else (k', v') :: dict_set d' k v
  end.

Fixpoint dict_lookup (k : value) (d : dict) : option value :=
  match d with
  | [] => None
  | (k', v') :: d' => if key_eqb k' k then Some v' else dict_lookup k d'
  end.

(** [{f(k): v for k, v in items}] *)
Definition dict_comprehension (f : value -> value) (items : list (value * value)) : dict :=
  fold_left (fun acc kv => dict_set acc (f (fst kv)) (snd kv)) items [].

(** [v.items()] *)
Definition py_items (v : value) : result (list (value * value)) :=
  match v with
  | VDict d => Ret d
  | _ => Raise (AttributeError "items")
  end.

(** One element of the sequence given to [dict.update]: a sequence of
    length two. *)
Definition update_pair (e : value) : result (value * value) :=
  match e with
  | VList l =>
      match l with
      | [k; v] => Ret (k, v)
      | _ => Raise ValueError
      end
  | VStr s =>
      match s with
      | String a (String b EmptyString) => Ret (VStr (str_of_char a), VStr (str_of_char b))
      | _ => Raise ValueError
      end
  | VDict d =>
      match d with
      | [(k1, _); (k2, _)] => Ret (k1, k2)
      | _ => Raise ValueError
      end
  | _ => Raise (TypeError NotIterable)
  end.

Fixpoint update_from_pairs (d : dict) (l : list value) : result dict :=
  match l with
  | [] => Ret d
  | e :: l' =>
      kv <- update_pair e ;;
      if hashable (fst kv)
      then update_from_pairs (dict_set d (fst kv) (snd kv)) l'
      else Raise (TypeError Unhashable)
  end.

(** The merge of two dicts: the entries of [other] are set in [d] one by
    one, so that [other] wins on a common key. *)
Definition dict_merge (d other : dict) : dict :=
  fold_left (fun acc kv => dict_set acc (fst kv) (snd kv)) other d.

(** [d.update(other)]: [other] is a dict or an iterable of pairs. *)
Definition dict_update (d : dict) (other : value) : result dict :=
  match other with
  | VDict o => Ret (dict_merge d o)
  | VList l => update_from_pairs d l
  | VStr s => match s with
              | EmptyString => Ret d
              | _ => Raise ValueError
              end
  | _ => Raise (TypeError NotIterable)
  end.

(** ** Keyword arguments *)

Fixpoint kw_lookup (k : string) (kw : kwargs) : option value :=
  match kw with
  | [] => None
  | (k', v) :: kw' => if (k' =? k)%string then Some v else kw_lookup k kw'
  end.

(** [kw.get(k, default)] *)
Definition kw_get (kw : kwargs) (k : string) (default : value) : value :=
  match kw_lookup k kw with
  | Some v => v
  | None => default
  end.

Definition kw_empty (kw : kwargs) : bool :=
  match kw with
  | [] => true
  | _ => false
  end.

(** ** Calls

    Every function of [engine.py] has a receiver ([self] or [cls]), some
    positional-or-keyword parameters, possibly with defaults, and a
    [**kwargs] parameter that takes the remaining keywords. *)

Record signature : Type := {
  receiver : string;
  parameters : list string;
  defaults : list (string * value)
}.

Definition slots : Type := list (string * option value).

Fixpoint bind_positional (names : list string) (args : list value) : slots * list value :=
  match names with
  | [] => ([], args)
  | n :: names' =>
      match args with
      | [] => let r := bind_positional names' [] in ((n, None) :: fst r, snd r)
      | a :: args' => let r := bind_positional names' args' in ((n, Some a) :: fst r, snd r)
      end
  end.

Fixpoint slot_state (k : string) (s : slots) : option (option value) :=
  match s with
  | [] => None
  | (n, x) :: s' => if (n =? k)%string then Some x else slot_state k s'
  end.

Fixpoint slot_fill (k : string) (v : value) (s : slots) : slots :=
  match s with
  | [] => []
  | (n, x) :: s' => if (n =? k)%string then (n, Some v) :: s' else (n, x) :: slot_fill k v s'
  end.

(** Keywords are taken in order: one that names a parameter fills it, or
    fails if the parameter already has a value (as the receiver always
    has); any other goes to [**kwargs]. *)
Fixpoint bind_keywords (recv : string) (s : slots) (rest kw : kwargs) : result (slots * kwargs) :=
  match kw with
  | [] => Ret (s, rest)
  | (k, v) :: kw' =>
      if (k =? recv)%string then Raise (TypeError (MultipleValues k))
      else match slot_state k s with
           | Some (Some _) => Raise (TypeError (MultipleValues k))
           | Some None => bind_keywords recv (slot_fill k v s) rest kw'
           | None =>
               match kw_lookup k rest with
               | Some _ => Raise (TypeError (MultipleValues k))
               | None => bind_keywords recv s (rest ++ [(k, v)])%list kw'
               end
           end
  end.

(** Parameters left without a value take their default. *)
Fixpoint apply_defaults (dflt : list (string * value)) (s : slots) : slots :=
  match s with
  | [] => []
  | (n, Some v) :: s' => (n, Some v) :: apply_defaults dflt s'
  | (n, None) :: s' => (n, kw_lookup n dflt) :: apply_defaults dflt s'
  end.

Fixpoint missing (s : slots) : list string :=
  match s with
  | [] => []
  | (n, Some _) :: s' => missing s'
  | (n, None) :: s' => n :: missing s'
  end.

Fixpoint bound (s : slots) : kwargs :=
  match s with
  | [] => []
  | (n, Some v) :: s' => (n, v) :: bound s'
  | (n, None) :: s' => bound s'
  end.

(** The binding of a call with positional arguments [args] and keyword
    arguments [kw]: the values of the parameters
    and the dict of the [**kwargs] parameter. *)
Definition bind_call (sig : signature) (args : list value) (kw : kwargs)
  : result (kwargs * kwargs) :=
  let p := bind_positional (parameters sig) args in
  r <- bind_keywords (receiver sig) (fst p) [] kw ;;
  match snd p with
  | _ :: _ => Raise (TypeError TooManyPositional)
  | [] =>
      let s := apply_defaults (defaults sig) (fst r) in
      match missing s with
      | [] => Ret (bound s, snd r)
      | names => Raise (TypeError (MissingArguments names))
      end
  end.

(** The value bound to a parameter. *)
Definition arg (b : kwargs) (name : string) : value := kw_get b name VNone.

(** ** The builder classes *)

Inductive class : Type :=
| QueryConstructor
| TermQueryConstructor
| MatchQueryConstructor
| MultiMatchQueryConstructor
| NestedQueryConstructor
| ConditionalQueryMixin
| MustQueryConstructor
| ShouldQueryConstructor
| FilterQueryConstructor
| BoolQueryConstructor.

Definition class_eq_dec (a b : class) : {a = b} + {a <> b}.
Proof. decide equality. Defined.

(** The method resolution order of each class, without [object]. *)
Definition mro (c : class) : list class :=
  match c with
  | QueryConstructor => [QueryConstructor]
  | ConditionalQueryMixin => [ConditionalQueryMixin]
  | TermQueryConstructor => [TermQueryConstructor; QueryConstructor]
  | MatchQueryConstructor => [MatchQueryConstructor; QueryConstructor]
  | MultiMatchQueryConstructor => [MultiMatchQueryConstructor; QueryConstructor]
  | NestedQueryConstructor => [NestedQueryConstructor; QueryConstructor]
  | MustQueryConstructor => [MustQueryConstructor; ConditionalQueryMixin; QueryConstructor]
  | ShouldQueryConstructor => [ShouldQueryConstructor; ConditionalQueryMixin; QueryConstructor]
  | FilterQueryConstructor => [FilterQueryConstructor; ConditionalQueryMixin; QueryConstructor]
  | BoolQueryConstructor => [BoolQueryConstructor; ConditionalQueryMixin; QueryConstructor]
  end.

Fixpoint after (c : class) (l : list class) : option (list class) :=
  match l with
  | [] => None
  | c' :: l' => if class_eq_dec c' c then Some l' else after c l'
  end.

(** [super(c, self).get_query]: the class that follows [c] in the order of
    [self]'s class; every class above defines [get_query], [object] does
    not. *)
Definition py_super (c self : class) : result class :=
  match after c (mro self) with
  | None => Raise (TypeError SuperNotInstance)
  | Some [] => Raise (AttributeError "get_query")
  | Some (next :: _) => Ret next
  end.

(** The instantiation of [cls] with keyword arguments: no class defines
    [__init__]. *)
Definition instantiate (cls : class) (kw : kwargs) : result class :=
  if kw_empty kw then Ret cls else Raise (TypeError TakesNoArguments).

(** [QueryConstructor.construct(type, **kwargs)] *)
Definition construct (type : value) (kw : kwargs) : result class :=
  let constructor_cls :=
    if py_eq_str type "term" then Some TermQueryConstructor else
    if py_eq_str type "match" then Some MatchQueryConstructor else
    if py_eq_str type "multi_match" then Some MultiMatchQueryConstructor else
    if py_eq_str type "nested" then Some NestedQueryConstructor else
    if py_eq_str type "must" then Some MustQueryConstructor else
    if py_eq_str type "should" then Some ShouldQueryConstructor else
    if py_eq_str type "bool" then Some BoolQueryConstructor else None in
  match constructor_cls with
  | None => Raise (AssertionError ("Unsupported type received as argument: " ++ py_str type))
  | Some cls => instantiate cls kw
  end.

(** [QueryConstructor.get_query] *)
Definition QueryConstructor_get_query (index mapping : value) (kw : kwargs) : result value :=
  Raise (NotImplementedError "Implement this method in child class.").

(** [TermQueryConstructor.get_query(self, index, mapping, **values)] *)
Definition TermQueryConstructor_get_query (index mapping : value) (values : kwargs)
  : result value :=
  py_assert (negb (kw_empty values))
    ("Invalid values received as argument: " ++ py_str (kwargs_value values)) ;;;
  let query_params := kw_get values "query_params" (kwargs_value values) in
  let additional_query_params := kw_get values "additional_query_params" (VDict []) in
  items <- py_items query_params ;;
  let term := dict_comprehension (fun col => col) items in
  term <- dict_update term additional_query_params ;;
  Ret (VDict [(VStr "term", VDict term)]).

(** [MatchQueryConstructor.get_query(self, index, mapping, **values)] *)
Definition MatchQueryConstructor_get_query (index mapping : value) (values : kwargs)
  : result value :=
  py_assert (negb (kw_empty values))
    ("Invalid values received as argument: " ++ py_str (kwargs_value values)) ;;;
  let query_params := kw_get values "query_params" (kwargs_value values) in
  let additional_query_params := kw_get values "additional_query_params" (VDict []) in
  items <- py_items query_params ;;
  let match_ := dict_comprehension (fun col => col) items in
  match_ <- dict_update match_ additional_query_params ;;
  Ret (VDict [(VStr "match", VDict match_)]).

(** [MultiMatchQueryConstructor.get_query(self, index, mapping, query,
    fields, q_type="cross_fields", **kwargs)] *)
Definition MultiMatchQueryConstructor_get_query
  (index mapping query fields q_type : value) (kw : kwargs) : result value :=
  py_assert (py_bool fields)
    ("Invalid fields received as argument: " ++ py_str fields) ;;;
  let additional_query_params := kw_get kw "additional_query_params" (VDict []) in
  let dict_multi_match :=
    [(VStr "query", query); (VStr "fields", fields); (VStr "type", q_type)] in
  dict_multi_match <- dict_update dict_multi_match additional_query_params ;;
  Ret (VDict [(VStr "multi_match", VDict dict_multi_match)]).

(** ["{}.{}".format(path, field)] *)
Definition format_path_field (path field : value) : value :=
  VStr (py_str path ++ "." ++ py_str field).

(** [NestedQueryConstructor.get_query(self, index, mapping, path, **values)] *)
Definition NestedQueryConstructor_get_query (index mapping path : value) (values : kwargs)
  : result value :=
  py_assert (py_bool path) ("Invalid path received: " ++ py_str path) ;;;
  py_assert (negb (kw_empty values))
    ("Invalid values received as argument: " ++ py_str (kwargs_value values)) ;;;
  let query_params := kw_get values "query_params" (kwargs_value values) in
  let additional_query_params := kw_get values "additional_query_params" (VDict []) in
  items <- py_items query_params ;;
  let nested :=
    [(VStr "path", path);
     (VStr "query", VDict (dict_comprehension (format_path_field path) items))] in
  nested <- dict_update nested additional_query_params ;;
  Ret (VDict [(VStr "nested", VDict nested)]).

(** The loop of [ConditionalQueryMixin.get_query] over
    [query_types.items()]; [call c] is [get_query] on an instance of [c]. *)
Fixpoint conditional_loop (call : class -> list value -> kwargs -> result value)
  (items : list (value * value)) (body : list value) : result (list value) :=
  match items with
  | [] => Ret body
  | (query_type, query_type_config) :: items' =>
      constructor <- construct query_type [] ;;
      query <- call constructor [query_type_config] [] ;;
      conditional_loop call items' (body ++ [query])%list
  end.

(** [ConditionalQueryMixin.get_query(self, index, mapping, **kwargs)] *)
Definition ConditionalQueryMixin_get_query
  (call : class -> list value -> kwargs -> result value)
  (index mapping : value) (kw : kwargs) : result value :=
  py_assert (negb (kw_empty kw))
    ("Invalid kwargs received: " ++ py_str (kwargs_value kw)) ;;;
  let query_types := kw_get kw "query_types" VNone in
  py_assert (py_bool query_types)
    ("Invalid query_types received as argument: " ++ py_str query_types) ;;;
  items <- py_items query_types ;;
  body <- conditional_loop call items [] ;;
  Ret (VList body).

(** The combinators call [get_query] of the next class with the same
    instance: [super_call c self] is [c.get_query] applied to [self]. *)
Definition MustQueryConstructor_get_query
  (super_call : class -> class -> list value -> kwargs -> result value)
  (self : class) (index mapping : value) (kw : kwargs) : result value :=
  next <- py_super MustQueryConstructor self ;;
  body <- super_call next self [index; mapping] kw ;;
  Ret (VDict [(VStr "must", body)]).

Definition ShouldQueryConstructor_get_query
  (super_call : class -> class -> list value -> kwargs -> result value)
  (self : class) (index mapping : value) (kw : kwargs) : result value :=
  next <- py_super ShouldQueryConstructor self ;;
  body <- super_call next self [index; mapping] kw ;;
  Ret (VDict [(VStr "should", body)]).

Definition FilterQueryConstructor_get_query
  (super_call : class -> class -> list value -> kwargs -> result value)
  (self : class) (index mapping : value) (kw : kwargs) : result value :=
  next <- py_super FilterQueryConstructor self ;;
  body <- super_call next self [index; mapping] kw ;;
  Ret (VDict [(VStr "filter", body)]).

(** [BoolQueryConstructor.get_query] names [FilterQueryConstructor] in its
    [super] call. *)
Definition BoolQueryConstructor_get_query
  (super_call : class -> class -> list value -> kwargs -> result value)
  (self : class) (index mapping : value) (kw : kwargs) : result value :=
  next <- py_super FilterQueryConstructor self ;;
  body <- super_call next self [index; mapping] kw ;;
  Ret (VDict [(VStr "bool", body)]).

(** The parameters of [get_query] as each class declares them. *)
Definition get_query_signature (defn : class) : signature :=
  match defn with
  | MultiMatchQueryConstructor =>
      {| receiver := "self";
         parameters := ["index"; "mapping"; "query"; "fields"; "q_type"];
         defaults := [("q_type", VStr "cross_fields")] |}
  | NestedQueryConstructor =>
      {| receiver := "self";
         parameters := ["index"; "mapping"; "path"];
         defaults := [] |}
  | _ =>
      {| receiver := "self";
         parameters := ["index"; "mapping"];
         defaults := [] |}
  end.

(** A call of the [get_query] that class [defn] defines, on an instance of
    class [self]. *)
Fixpoint get_query_at (depth : nat) (defn self : class) (args : list value) (kw : kwargs)
  {struct depth} : result value :=
  match depth with
  | O => Raise RecursionError
  | S depth' =>
      b <- bind_call (get_query_signature defn) args kw ;;
      let p := fst b in
      let rest := snd b in
      let call := fun c => get_query_at depth' c c in
      match defn with
      | QueryConstructor =>
          QueryConstructor_get_query (arg p "index") (arg p "mapping") rest
      | TermQueryConstructor =>
          TermQueryConstructor_get_query (arg p "index") (arg p "mapping") rest
      | MatchQueryConstructor =>
          MatchQueryConstructor_get_query (arg p "index") (arg p "mapping") rest
      | MultiMatchQueryConstructor =>
          MultiMatchQueryConstructor_get_query (arg p "index") (arg p "mapping")
            (arg p "query") (arg p "fields") (arg p "q_type") rest
      | NestedQueryConstructor =>
          NestedQueryConstructor_get_query (arg p "index") (arg p "mapping")
            (arg p "path") rest
      | ConditionalQueryMixin =>
          ConditionalQueryMixin_get_query call (arg p "index") (arg p "mapping") rest
      | MustQueryConstructor =>
          MustQueryConstructor_get_query (get_query_at depth') self
            (arg p "index") (arg p "mapping") rest
      | ShouldQueryConstructor =>
          ShouldQueryConstructor_get_query (get_query_at depth') self
            (arg p "index") (arg p "mapping") rest
      | FilterQueryConstructor =>
          FilterQueryConstructor_get_query (get_query_at depth') self
            (arg p "index") (arg p "mapping") rest
      | BoolQueryConstructor =>
          BoolQueryConstructor_get_query (get_query_at depth') self
            (arg p "index") (arg p "mapping") rest
      end
  end.

(** [constructor.get_query(...)]: each class has a [get_query] of its own. *)
Definition get_query (depth : nat) (constructor : class) (args : list value) (kw : kwargs)
  : result value :=
  get_query_at depth constructor constructor args kw.

(** ** The client *)

Record ElasticSearchQueryEngine : Type := {
  _host : value;
  _port : value
}.

(** What [send_request] hands to [requests]: the function it picks and
    the keyword arguments [url], [headers] and [json]. *)
Record request : Type := {
  method_cb : string;
  url : string;
  headers : value;
  json : value
}.

(** ["{}:{}/{}".format(self._host, self._port, url)] *)
Definition get_url (self : ElasticSearchQueryEngine) (u : string) : string :=
  py_str (_host self) ++ ":" ++ py_str (_port self) ++ "/" ++ u.

Definition send_request (self : ElasticSearchQueryEngine) (u method : string)
  (hdrs body : value) : request :=
  {| method_cb := py_lower method; url := get_url self u; headers := hdrs; json := body |}.

(** ["{}/{}".format(index, mapping)] *)
Definition format_index_mapping (index mapping : value) : string :=
  py_str index ++ "/" ++ py_str mapping.

(** [ElasticSearchQueryEngine._query(self, type, index, mapping, **kwargs)] *)
Definition _query (depth : nat) (type index mapping : value) (kw : kwargs) : result value :=
  constructor <- construct type [] ;;
  query <- get_query depth constructor [index; mapping] kw ;;
  let body := [(VStr "query", query)] in
  let other_params := kw_get kw "other_params" (VDict []) in
  body <- dict_update body other_params ;;
  Ret (VDict body).

Definition _query_signature : signature :=
  {| receiver := "self"; parameters := ["type"; "index"; "mapping"]; defaults := [] |}.

(** A call [self._query(...)]. *)
Definition call_query (depth : nat) (args : list value) (kw : kwargs) : result value :=
  b <- bind_call _query_signature args kw ;;
  _query depth (arg (fst b) "type") (arg (fst b) "index") (arg (fst b) "mapping") (snd b).

Definition index_mapping_signature : signature :=
  {| receiver := "self"; parameters := ["index"; "mapping"]; defaults := [] |}.

(** The methods that take [(self, index, mapping, **kwargs)] and differ in
    the type they give to [_query]. *)
Definition query_method (type : string) (depth : nat) (self : ElasticSearchQueryEngine)
  (args : list value) (kw : kwargs) : result request :=
  b <- bind_call index_mapping_signature args kw ;;
  let index := arg (fst b) "index" in
  let mapping := arg (fst b) "mapping" in
  body <- call_query depth [VStr type; index; mapping] (snd b) ;;
  Ret (send_request self (format_index_mapping index mapping) "get" (VDict []) body).

Definition term_query := query_method "term".
Definition match_ := query_method "match".
Definition must := query_method "must".
Definition should := query_method "should".
Definition filter := query_method "filter".
Definition bool_ := query_method "bool".

(** [multi_match(self, index, mapping, query, fields,
    q_type="cross_fields", **kwargs)] *)
Definition multi_match (depth : nat) (self : ElasticSearchQueryEngine)
  (args : list value) (kw : kwargs) : result request :=
  b <- bind_call (get_query_signature MultiMatchQueryConstructor) args kw ;;
  let index := arg (fst b) "index" in
  let mapping := arg (fst b) "mapping" in
  body <- call_query depth [VStr "multi_match"; index; mapping]
            ([("query", arg (fst b) "query"); ("fields", arg (fst b) "fields");
              ("q_type", arg (fst b) "q_type")] ++ snd b)%list ;;
  Ret (send_request self (format_index_mapping index mapping) "get" (VDict []) body).

(** [nested(self, index, mapping, path, **values)]: [path] is bound and
    not used. *)
Definition nested (depth : nat) (self : ElasticSearchQueryEngine)
  (args : list value) (kw : kwargs) : result request :=
  b <- bind_call (get_query_signature NestedQueryConstructor) args kw ;;
  let index := arg (fst b) "index" in
  let mapping := arg (fst b) "mapping" in
  body <- call_query depth [VStr "nested"; index; mapping] (snd b) ;;
  Ret (send_request self (format_index_mapping index mapping) "get" (VDict []) body).

(** ** Notions used in the statements *)

(** The type tags that [construct] compares its argument with. *)
Definition recognized_tags : list string :=
  ["term"; "match"; "multi_match"; "nested"; "must"; "should"; "bool"].

(** [construct(tag)] gives class [c], [get_query] of [c] returns for some
    arguments, and whatever it returns is a dict with the one key [tag]. *)
Definition builds_clause (tag : string) (c : class) : Prop :=
  construct (VStr tag) [] = Ret c /\
  (exists args kw v, get_query 1 c args kw = Ret v) /\
  forall depth args kw v,
    get_query depth c args kw = Ret v -> exists body, v = VDict [(VStr tag, body)].

(** [get_query] of class [c] raises whatever it is called with. *)
Definition never_returns (c : class) : Prop :=
  forall depth args kw, exists e, get_query depth c args kw = Raise e.

(** A keyword argument that the caller may leave out. *)
Definition keyword (name : string) (v : option value) : kwargs :=
  match v with
  | Some x => [(name, x)]
  | None => []
  end.

Definition default (v : option value) (d : value) : value :=
  match v with
  | Some x => x
  | None => d
  end.

(** The clause of the specification for multi_match: the dict of query,
    fields and type, merged with the additional parameters, under the key
    multi_match. *)
Definition spec_multi_match_clause
  (query : value) (fields : list value) (match_type : value) (additional : dict) : value :=
  VDict [(VStr "multi_match",
          VDict (dict_merge [(VStr "query", query); (VStr "fields", VList fields);
                             (VStr "type", match_type)]
                            additional))].

(** The keywords of a multi_match call that may be left out. *)
Definition multi_match_keywords (q_type : option value) (additional : option dict) : kwargs :=
  (keyword "q_type" q_type
     ++ keyword "additional_query_params" (option_map VDict additional))%list.

Definition is_assertion (e : exn) : bool :=
  match e with
  | AssertionError _ => true
  | _ => false
  end.

(** A dict as Python keeps it: hashable keys, no two of them equal. *)
Fixpoint dict_wf (d : dict) : bool :=
  match d with
  | [] => true
  | (k, _) :: d' =>
      hashable k && negb (existsb (fun kv => key_eqb (fst kv) k) d') && dict_wf d'
  end.

(** The tags of [construct] with the classes it instantiates for them. *)
Definition builder_table : list (value * class) :=
  [(VStr "term", TermQueryConstructor); (VStr "match", MatchQueryConstructor);
   (VStr "multi_match", MultiMatchQueryConstructor);
   (VStr "nested", NestedQueryConstructor);
   (VStr "must", MustQueryConstructor); (VStr "should", ShouldQueryConstructor);
   (VStr "bool", BoolQueryConstructor)].

(** The parameters of [get_query] that have no value when the call gives
    one positional argument and no keyword. *)
Definition config_only_missing (c : class) : list string :=
  match c with
  | MultiMatchQueryConstructor => ["mapping"; "query"; "fields"]
  | NestedQueryConstructor => ["mapping"; "path"]
  | _ => ["mapping"]
  end.

(** The methods of the client that build a request. *)
Definition client_methods
  : list (nat -> ElasticSearchQueryEngine -> list value -> kwargs -> result request) :=
  [term_query; match_; multi_match; nested; must; should; filter; bool_].

Definition is_not_implemented (e : exn) : bool :=
  match e with
  | NotImplementedError _ => true
  | _ => false
  end.

(** The value of an optional dict argument when it is left out. *)
Definition or_empty (d : option dict) : dict :=
  match d with
  | Some x => x
  | None => []
  end.

(** What a combinator raises on a dict of query types whose first key is
    [t]: the failure of [construct], or the missing parameters of the
    sub-builder. *)
Definition first_entry_outcome (t : value) : result value :=
  match construct t [] with
  | Ret sub => Raise (TypeError (MissingArguments (config_only_missing sub)))
  | Raise e => Raise e
  end.

(** [result] reads every key as the merge of [base] and [other] should:
    in [other] first, and in [base] for a key that [other] lacks. *)
Definition merges (base other result : dict) : Prop :=
  forall k,
    dict_lookup k result
    = match dict_lookup k other with
      | Some v => Some v
      | None => dict_lookup k base
      end.

(** The caller gives the query parameters [query_params]: as the dict of
    the keyword [query_params], or, without that keyword, as the keyword
    arguments themselves. *)
Definition gives_query_params (values : kwargs) (query_params : dict) : Prop :=
  kw_lookup "query_params" values = Some (VDict query_params) \/
  (kw_lookup "query_params" values = None /\ query_params = str_items values).

(** * Properties *)

(** ** The error monad *)

Lemma rbind_Ret_inv {A B : Type} (m : result A) (k : A -> result B) (b : B) :
  rbind m k = Ret b -> exists a, m = Ret a /\ k a = Ret b.
Proof.
  destruct m as [a | e]; simpl; intros H.
  - exists a. split; [reflexivity | exact H].
  - discriminate H.
Qed.

Lemma py_assert_Ret_inv (cond : bool) (msg : string) (u : unit) :
  py_assert cond msg = Ret u -> cond = true.
Proof. destruct cond; simpl; [reflexivity | discriminate]. Qed.

(** ** Keyword dicts *)

Lemma kw_lookup_app (k : string) (l1 l2 : kwargs) :
  kw_lookup k (l1 ++ l2)%list =
  match kw_lookup k l1 with
  | Some v => Some v
  | None => kw_lookup k l2
  end.
Proof.
  induction l1 as [| [k1 v1] l1 IH]; simpl; [reflexivity |].
  destruct (k1 =? k)%string; [reflexivity | exact IH].
Qed.

Lemma kw_lookup_None (k : string) (l : kwargs) :
  kw_lookup k l = None <-> ~ In k (map fst l).
Proof.
  induction l as [| [k1 v1] l IH]; simpl.
  - tauto.
  - destruct (String.eqb_spec k1 k) as [E | N].
    + split; [discriminate | intros H; exfalso; apply H; left; exact E].
    + rewrite IH. tauto.
Qed.

Lemma kw_lookup_In (k : string) (v : value) (l : kwargs) :
  kw_lookup k l = Some v -> In (k, v) l.
Proof.
  induction l as [| [k1 v1] l IH]; simpl; [discriminate |].
  destruct (String.eqb_spec k1 k) as [E | N].
  - intros H. injection H as ->. left. rewrite E. reflexivity.
  - intros H. right. exact (IH H).
Qed.

(** ** The binding of calls *)

Lemma slot_state_fill (k k' : string) (v : value) (s : slots) :
  slot_state k (slot_fill k' v s) =
  if (k' =? k)%string
  then match slot_state k s with
       | Some _ => Some (Some v)
       | None => None
       end
  else slot_state k s.
Proof.
  induction s as [| [n x] s IH]; simpl.
  - destruct (k' =? k)%string; reflexivity.
  - destruct (String.eqb_spec n k') as [E1 | N1]; simpl.
    + subst n. destruct (String.eqb_spec k' k) as [E2 | N2]; reflexivity.
    + destruct (String.eqb_spec n k) as [E2 | N2].
      * subst n. destruct (String.eqb_spec k' k) as [E3 | N3];
          [exfalso; apply N1; symmetry; exact E3 | reflexivity].
      * exact IH.
Qed.

(** The binding of keywords fails with a [TypeError] only. *)
Lemma bind_keywords_Raise (recv : string) (kw : kwargs) :
  forall (s : slots) (rest : kwargs) (e : exn),
    bind_keywords recv s rest kw = Raise e -> exists why, e = TypeError why.
Proof.
  induction kw as [| [k v] kw IH]; simpl; intros s rest e H.
  - discriminate H.
  - destruct (k =? recv)%string.
    + injection H as <-. eexists; reflexivity.
    + destruct (slot_state k s) as [[x |] |].
      * injection H as <-. eexists; reflexivity.
      * exact (IH _ _ _ H).
      * destruct (kw_lookup k rest).
        -- injection H as <-. eexists; reflexivity.
        -- exact (IH _ _ _ H).
Qed.

(** A parameter that no keyword names keeps the state the positional
    arguments gave it. *)
Lemma bind_keywords_slot_kept (recv k : string) (kw : kwargs) :
  forall (s s' : slots) (rest rest' : kwargs),
    bind_keywords recv s rest kw = Ret (s', rest') ->
    kw_lookup k kw = None ->
    slot_state k s' = slot_state k s.
Proof.
  induction kw as [| [k1 v1] kw IH]; simpl; intros s s' rest rest' H Hk.
  - injection H as <- _. reflexivity.
  - destruct (String.eqb_spec k1 k) as [E | N]; [discriminate Hk |].
    destruct (k1 =? recv)%string; [discriminate H |].
    destruct (slot_state k1 s) as [[x |] |] eqn:S1.
    + discriminate H.
    + rewrite (IH _ _ _ _ H Hk), slot_state_fill.
      destruct (String.eqb_spec k1 k) as [E | _]; [contradiction | reflexivity].
    + destruct (kw_lookup k1 rest); [discriminate H |].
      exact (IH _ _ _ _ H Hk).
Qed.

(** The dict of the [**kwargs] parameter never holds the name of a
    parameter, nor a name that was not among the keywords. *)
Lemma bind_keywords_rest (recv k : string) (kw : kwargs) :
  forall (s s' : slots) (rest rest' : kwargs),
    bind_keywords recv s rest kw = Ret (s', rest') ->
    slot_state k s <> None \/ kw_lookup k kw = None ->
    kw_lookup k rest = None ->
    kw_lookup k rest' = None.
Proof.
  induction kw as [| [k1 v1] kw IH]; simpl; intros s s' rest rest' H Hk Hr.
  - injection H as _ <-. exact Hr.
  - destruct (k1 =? recv)%string; [discriminate H |].
    destruct (slot_state k1 s) as [[x |] |] eqn:S1.
    + discriminate H.
    + apply (IH _ _ _ _ H); [| exact Hr].
      destruct (String.eqb_spec k1 k) as [E | N].
      * left. rewrite slot_state_fill, <- E, String.eqb_refl, S1. discriminate.
      * destruct Hk as [Hk | Hk]; [left | right; exact Hk].
        rewrite slot_state_fill.
        destruct (String.eqb_spec k1 k) as [E | _]; [contradiction | exact Hk].
    + destruct (kw_lookup k1 rest) eqn:R1; [discriminate H |].
      destruct (String.eqb_spec k1 k) as [E | N].
      * exfalso. subst k1. destruct Hk as [Hk | Hk]; [exact (Hk S1) | discriminate Hk].
      * apply (IH _ _ _ _ H); [exact Hk |].
        rewrite kw_lookup_app, Hr. simpl.
        destruct (String.eqb_spec k1 k) as [E | _]; [contradiction | reflexivity].
Qed.

Definition all_filled (s : slots) : bool :=
  forallb (fun nx => match snd nx with Some _ => true | None => false end) s.

Lemma all_filled_slot_state (k : string) (s : slots) :
  all_filled s = true -> slot_state k s <> Some None.
Proof.
  induction s as [| [n x] s IH]; simpl; [discriminate |].
  intros H. apply andb_true_iff in H. destruct H as [Hx Hs].
  destruct (n =? k)%string.
  - destruct x; [discriminate | discriminate Hx].
  - exact (IH Hs).
Qed.

(** When the positional arguments gave every parameter a value, keywords
    can only go to [**kwargs]. *)
Lemma bind_keywords_all_filled (recv : string) (kw : kwargs) :
  forall (s s' : slots) (rest rest' : kwargs),
    all_filled s = true ->
    bind_keywords recv s rest kw = Ret (s', rest') ->
    s' = s.
Proof.
  induction kw as [| [k1 v1] kw IH]; simpl; intros s s' rest rest' F H.
  - injection H as <- _. reflexivity.
  - destruct (k1 =? recv)%string; [discriminate H |].
    destruct (slot_state k1 s) as [[x |] |] eqn:S1.
    + discriminate H.
    + exfalso. exact (all_filled_slot_state k1 s F S1).
    + destruct (kw_lookup k1 rest); [discriminate H |].
      exact (IH _ _ _ _ F H).
Qed.

(** Keywords that name neither the receiver nor a parameter, each given
    once, all go to [**kwargs], in order. *)
Lemma bind_keywords_fresh (recv : string) (s : slots) (kw : kwargs) :
  forall rest : kwargs,
    NoDup (map fst rest ++ map fst kw)%list ->
    (forall k, In k (map fst kw) -> k <> recv /\ slot_state k s = None) ->
    bind_keywords recv s rest kw = Ret (s, (rest ++ kw)%list).
Proof.
  induction kw as [| [k1 v1] kw IH]; simpl; intros rest ND F.
  - rewrite app_nil_r. reflexivity.
  - destruct (F k1 (or_introl eq_refl)) as [Nr S1].
    destruct (String.eqb_spec k1 recv) as [E | _]; [contradiction |].
    rewrite S1.
    assert (R1 : kw_lookup k1 rest = None).
    { apply kw_lookup_None. intros I.
      apply NoDup_remove_2 in ND. apply ND. apply in_or_app. left. exact I. }
    rewrite R1.
    rewrite IH.
    + rewrite <- app_assoc. reflexivity.
    + rewrite map_app. simpl. rewrite <- app_assoc. simpl.
      apply NoDup_remove_1 in ND as ND1.
      apply NoDup_remove_2 in ND as ND2.
      clear - ND1 ND2.
      induction (map fst rest) as [| a l IHl]; simpl in *.
      * constructor; assumption.
      * inversion ND1 as [| ? ? Ha Hl]; subst.
        constructor.
        -- intros I. apply in_app_or in I. destruct I as [I | [I | I]].
           ++ apply Ha. apply in_or_app. left. exact I.
           ++ apply ND2. left. symmetry. exact I.
           ++ apply Ha. apply in_or_app. right. exact I.
        -- apply IHl; [exact Hl |]. intros I. apply ND2. right. exact I.
    + intros k I. apply F. right. exact I.
Qed.

(** A parameter without a value and without a default is reported
    missing. *)
Lemma missing_unfilled (k : string) (dflt : list (string * value)) (s : slots) :
  slot_state k s = Some None ->
  kw_lookup k dflt = None ->
  missing (apply_defaults dflt s) <> [].
Proof.
  induction s as [| [n x] s IH]; simpl; [discriminate |].
  intros H D. destruct (String.eqb_spec n k) as [E | N].
  - injection H as ->. subst n. rewrite D. discriminate.
  - destruct x as [v |]; simpl.
    + exact (IH H D).
    + destruct (kw_lookup n dflt); simpl; [exact (IH H D) | discriminate].
Qed.

Lemma bind_positional_slot_state (k : string) (names : list string) :
  forall args : list value,
    In k names -> slot_state k (fst (bind_positional names args)) <> None.
Proof.
  induction names as [| n names IH]; simpl; intros args I; [contradiction |].
  destruct args as [| a args]; simpl;
    (destruct (String.eqb_spec n k) as [E | N];
     [discriminate | destruct I as [I | I]; [contradiction | exact (IH _ I)]]).
Qed.

Lemma bind_positional_no_slot (k : string) (names : list string) :
  forall args : list value,
    ~ In k names -> slot_state k (fst (bind_positional names args)) = None.
Proof.
  induction names as [| n names IH]; simpl; intros args N; [reflexivity |].
  destruct args as [| a args]; simpl;
    (destruct (String.eqb_spec n k) as [E | _];
     [exfalso; apply N; left; exact E | apply IH; intros I; apply N; right; exact I]).
Qed.

(** Keywords that name neither the receiver nor a parameter of the callee
    leave the positional binding as it is. *)
Lemma bind_keywords_call_fresh (sig : signature) (args : list value) (kw : kwargs) :
  NoDup (map fst kw) ->
  (forall k, In k (receiver sig :: parameters sig) -> kw_lookup k kw = None) ->
  bind_keywords (receiver sig) (fst (bind_positional (parameters sig) args)) [] kw
  = Ret (fst (bind_positional (parameters sig) args), kw).
Proof.
  intros ND F.
  apply (bind_keywords_fresh (receiver sig) _ kw []); [exact ND |].
  intros k I.
  assert (N : ~ In k (receiver sig :: parameters sig)).
  { intros Ik. apply (proj1 (kw_lookup_None k kw) (F k Ik)). exact I. }
  split.
  - intros E. apply N. left. symmetry. exact E.
  - apply bind_positional_no_slot. intros Ik. apply N. right. exact Ik.
Qed.

(** A call fails to bind with a [TypeError] only. *)
Lemma bind_call_Raise (sig : signature) (args : list value) (kw : kwargs) (e : exn) :
  bind_call sig args kw = Raise e -> exists why, e = TypeError why.
Proof.
  unfold bind_call. intros H.
  destruct (bind_keywords (receiver sig) (fst (bind_positional (parameters sig) args)) [] kw)
    as [r | e'] eqn:K; simpl in H.
  - destruct (snd (bind_positional (parameters sig) args)).
    + destruct (missing (apply_defaults (defaults sig) (fst r))).
      * discriminate H.
      * injection H as <-. eexists; reflexivity.
    + injection H as <-. eexists; reflexivity.
  - injection H as <-. exact (bind_keywords_Raise _ _ _ _ _ K).
Qed.

(** After a call is bound, [**kwargs] holds no parameter name and no name
    that the caller did not give. *)
Lemma bind_call_rest (sig : signature) (args : list value) (kw p rest : kwargs) (k : string) :
  bind_call sig args kw = Ret (p, rest) ->
  In k (parameters sig) \/ kw_lookup k kw = None ->
  kw_lookup k rest = None.
Proof.
  unfold bind_call. intros H Hk.
  destruct (bind_keywords (receiver sig) (fst (bind_positional (parameters sig) args)) [] kw)
    as [[s' rest'] | e'] eqn:K; simpl in H; [| discriminate H].
  assert (R : kw_lookup k rest' = None).
  { apply (bind_keywords_rest _ _ _ _ _ _ _ K); [| reflexivity].
    destruct Hk as [I | N]; [left | right; exact N].
    apply bind_positional_slot_state. exact I. }
  destruct (snd (bind_positional (parameters sig) args)); [| discriminate H].
  destruct (missing (apply_defaults (defaults sig) s')); [| discriminate H].
  injection H as _ <-. exact R.
Qed.

(** ** Dicts *)

Lemma key_eqb_sym (a b : value) : key_eqb a b = key_eqb b a.
Proof.
  destruct a as [| x | n | s | l | d], b as [| y | m | t | l' | d']; simpl;
    try reflexivity.
  - destruct x, y; reflexivity.
  - apply Z.eqb_sym.
  - apply String.eqb_sym.
Qed.

Lemma key_eqb_trans (a b c : value) :
  key_eqb a b = true -> key_eqb b c = true -> key_eqb a c = true.
Proof.
  destruct a as [| x | n | s | l | d], b as [| y | m | t | l' | d'],
    c as [| z | o | u | l'' | d'']; simpl; try discriminate; try reflexivity;
    repeat match goal with
           | x : bool |- _ => destruct x
           end; simpl;
    rewrite ?Z.eqb_eq, ?String.eqb_eq; intros; subst; try discriminate;
    try reflexivity; lia.
Qed.

(** What a key reads after an assignment. *)
Lemma dict_lookup_set (k k' v : value) (d : dict) :
  dict_lookup k (dict_set d k' v) =
  if key_eqb k' k then Some v else dict_lookup k d.
Proof.
  induction d as [| [k1 v1] d IH]; simpl.
  - reflexivity.
  - destruct (key_eqb k1 k') eqn:E1; simpl.
    + destruct (key_eqb k1 k) eqn:E2.
      * rewrite key_eqb_sym in E1. rewrite (key_eqb_trans _ _ _ E1 E2). reflexivity.
      * destruct (key_eqb k' k) eqn:E3; [| reflexivity].
        rewrite (key_eqb_trans _ _ _ E1 E3) in E2. discriminate E2.
    + destruct (key_eqb k1 k) eqn:E2; [| exact IH].
      destruct (key_eqb k' k) eqn:E3; [| reflexivity].
      rewrite key_eqb_sym in E3. rewrite (key_eqb_trans _ _ _ E2 E3) in E1.
      discriminate E1.
Qed.

(** A key that [other] does not have reads the same after the merge. *)
Lemma dict_lookup_merge_None (k : value) (other : dict) :
  forall d : dict,
    dict_lookup k other = None ->
    dict_lookup k (dict_merge d other) = dict_lookup k d.
Proof.
  unfold dict_merge.
  induction other as [| [k1 v1] other IH]; simpl; intros d H; [reflexivity |].
  destruct (key_eqb k1 k) eqn:E; [discriminate H |].
  rewrite (IH _ H), dict_lookup_set, E. reflexivity.
Qed.

(** A key that [other] has reads what the last such entry of [other]
    holds: [other] wins. *)
Lemma dict_lookup_merge_Some (k v : value) (other : dict) :
  forall d : dict,
    dict_lookup k (rev other) = Some v ->
    dict_lookup k (dict_merge d other) = Some v.
Proof.
  unfold dict_merge.
  induction other as [| [k1 v1] other IH] using rev_ind; simpl; intros d H;
    [discriminate H |].
  rewrite fold_left_app. simpl. rewrite dict_lookup_set.
  rewrite rev_app_distr in H. simpl in H.
  destruct (key_eqb k1 k); [exact H |].
  exact (IH _ H).
Qed.

Lemma dict_set_fresh (k v : value) (d : dict) :
  (forall kv, In kv d -> key_eqb (fst kv) k = false) ->
  dict_set d k v = (d ++ [(k, v)])%list.
Proof.
  induction d as [| [k1 v1] d IH]; simpl; intros F; [reflexivity |].
  pose proof (F (k1, v1) (or_introl eq_refl)) as E. simpl in E. rewrite E.
  rewrite IH; [reflexivity |].
  intros kv I. apply F. right. exact I.
Qed.


Section Comprehension.

(** A comprehension whose keys are strings, all different, keeps one
    entry for each item, in order. *)
Variable f : value -> value.
Variable g : value -> string.

Lemma fold_dict_set_strings (items : list (value * value)) :
  forall done : list (value * value),
    (forall kv, In kv items -> f (fst kv) = VStr (g (fst kv))) ->
    NoDup (map (fun kv => g (fst kv)) (done ++ items)%list) ->
    fold_left (fun acc kv => dict_set acc (f (fst kv)) (snd kv)) items
      (map (fun kv => (VStr (g (fst kv)), snd kv)) done)
    = map (fun kv => (VStr (g (fst kv)), snd kv)) (done ++ items)%list.
Proof.
  induction items as [| [k v] items IH]; simpl; intros done F ND.
  - rewrite app_nil_r. reflexivity.
  - pose proof (F (k, v) (or_introl eq_refl)) as Fk. simpl in Fk. rewrite Fk.
    rewrite dict_set_fresh.
    + change [(VStr (g k), v)]
        with (map (fun kv : value * value => (VStr (g (fst kv)), snd kv)) [(k, v)]).
      rewrite <- map_app.
      rewrite IH.
      * rewrite <- app_assoc. reflexivity.
      * intros kv I. apply F. right. exact I.
      * rewrite <- app_assoc. exact ND.
    + intros kv I. apply in_map_iff in I. destruct I as [[k0 v0] [E I]].
      subst kv. simpl.
      destruct (String.eqb_spec (g k0) (g k)) as [Eg | Ng]; [| reflexivity].
      exfalso. rewrite map_app in ND. simpl in ND.
      apply NoDup_remove_2 in ND. apply ND. apply in_or_app. left.
      rewrite <- Eg.
      apply (in_map (fun kv => g (fst kv)) done (k0, v0)). exact I.
Qed.

Lemma dict_comprehension_strings (items : list (value * value)) :
  (forall kv, In kv items -> f (fst kv) = VStr (g (fst kv))) ->
  NoDup (map (fun kv => g (fst kv)) items) ->
  dict_comprehension f items = map (fun kv => (VStr (g (fst kv)), snd kv)) items.
Proof.
  intros F ND. unfold dict_comprehension.
  exact (fold_dict_set_strings items [] F ND).
Qed.

End Comprehension.


(** ** The combinators *)

(** A builder called with the configuration alone, as the loop of the
    mixin calls it, lacks [mapping] at least. *)
Lemma get_query_config_only (depth : nat) (c : class) (config : value) :
  exists names, get_query (S depth) c [config] [] = Raise (TypeError (MissingArguments names)).
Proof.
  destruct c; eexists; reflexivity.
Qed.

Lemma conditional_loop_nonempty
  (call : class -> list value -> kwargs -> result value)
  (item : value * value) (items : list (value * value)) (body : list value) :
  (forall c, exists e, call c [snd item] [] = Raise e) ->
  exists e, conditional_loop call (item :: items) body = Raise e.
Proof.
  intros C. destruct item as [query_type config]. simpl.
  destruct (construct query_type []) as [c | e]; simpl.
  - destruct (C c) as [e E]. simpl in E. rewrite E. simpl. exists e. reflexivity.
  - exists e. reflexivity.
Qed.

(** [ConditionalQueryMixin.get_query] returns for no arguments at all. *)
Lemma ConditionalQueryMixin_get_query_raises (depth : nat) (index mapping : value) (kw : kwargs) :
  exists e,
    ConditionalQueryMixin_get_query (fun c => get_query_at depth c c) index mapping kw
    = Raise e.
Proof.
  unfold ConditionalQueryMixin_get_query.
  destruct (py_assert (negb (kw_empty kw)) _) as [[] | e]; simpl;
    [| exists e; reflexivity].
  destruct (py_assert (py_bool (kw_get kw "query_types" VNone)) _) as [[] | e] eqn:A;
    simpl; [| exists e; reflexivity].
  apply py_assert_Ret_inv in A.
  destruct (kw_get kw "query_types" VNone) as [| b | n | s | l | d]; simpl;
    try (eexists; reflexivity).
  destruct d as [| item items]; [discriminate A |].
  destruct (conditional_loop_nonempty (fun c => get_query_at depth c c) item items [])
    as [e E].
  - intros c. destruct depth as [| depth].
    + exists RecursionError. reflexivity.
    + destruct (get_query_config_only depth c (snd item)) as [names E].
      eexists. exact E.
  - rewrite E. exists e. reflexivity.
Qed.

Lemma get_query_at_mixin_raises (depth : nat) (self : class) (args : list value) (kw : kwargs) :
  exists e, get_query_at depth ConditionalQueryMixin self args kw = Raise e.
Proof.
  destruct depth as [| depth]; [exists RecursionError; reflexivity |].
  cbn [get_query_at].
  destruct (bind_call (get_query_signature ConditionalQueryMixin) args kw) as [b | e];
    cbn [rbind]; [| exists e; reflexivity].
  apply ConditionalQueryMixin_get_query_raises.
Qed.

Lemma get_query_combinator_raises (depth : nat) (c : class) (args : list value) (kw : kwargs) :
  In c [MustQueryConstructor; ShouldQueryConstructor; FilterQueryConstructor;
        BoolQueryConstructor] ->
  exists e, get_query depth c args kw = Raise e.
Proof.
  intros I. unfold get_query.
  destruct depth as [| depth]; [exists RecursionError; reflexivity |].
  cbn [get_query_at].
  simpl in I. destruct I as [<- | [<- | [<- | [<- | []]]]];
    (destruct (bind_call _ args kw) as [b | e]; cbn [rbind];
     [| exists e; reflexivity]).
  - unfold MustQueryConstructor_get_query.
    change (py_super MustQueryConstructor MustQueryConstructor)
      with (Ret ConditionalQueryMixin).
    cbn [rbind].
    destruct (get_query_at_mixin_raises depth MustQueryConstructor
                [arg (fst b) "index"; arg (fst b) "mapping"] (snd b)) as [e E].
    rewrite E. exists e. reflexivity.
  - unfold ShouldQueryConstructor_get_query.
    change (py_super ShouldQueryConstructor ShouldQueryConstructor)
      with (Ret ConditionalQueryMixin).
    cbn [rbind].
    destruct (get_query_at_mixin_raises depth ShouldQueryConstructor
                [arg (fst b) "index"; arg (fst b) "mapping"] (snd b)) as [e E].
    rewrite E. exists e. reflexivity.
  - unfold FilterQueryConstructor_get_query.
    change (py_super FilterQueryConstructor FilterQueryConstructor)
      with (Ret ConditionalQueryMixin).
    cbn [rbind].
    destruct (get_query_at_mixin_raises depth FilterQueryConstructor
                [arg (fst b) "index"; arg (fst b) "mapping"] (snd b)) as [e E].
    rewrite E. exists e. reflexivity.
  - exists (TypeError SuperNotInstance). reflexivity.
Qed.

(** ** The factory *)

Ltac ret_inv H :=
  repeat (apply rbind_Ret_inv in H; destruct H as [? [? H]]);
  injection H as <-.

Lemma leaf_builds_one_key (tag : string) (c : class) :
  In (tag, c) [("term", TermQueryConstructor); ("match", MatchQueryConstructor);
               ("multi_match", MultiMatchQueryConstructor);
               ("nested", NestedQueryConstructor)] ->
  builds_clause tag c.
Proof.
  intros I. simpl in I.
  destruct I as [E | [E | [E | [E | []]]]]; injection E as <- <-;
    (split; [reflexivity |]); split.
  - exists [VStr "hinglish11"; VStr "student"], [("marks", VInt 44)].
    eexists; reflexivity.
  - intros depth args kw v H. unfold get_query in H.
    destruct depth as [| depth]; [discriminate H |].
    cbn [get_query_at] in H.
    apply rbind_Ret_inv in H. destruct H as [b [_ H]].
    unfold TermQueryConstructor_get_query in H. ret_inv H.
    eexists; reflexivity.
  - exists [VStr "hinglish11"; VStr "student"], [("marks", VInt 44)].
    eexists; reflexivity.
  - intros depth args kw v H. unfold get_query in H.
    destruct depth as [| depth]; [discriminate H |].
    cbn [get_query_at] in H.
    apply rbind_Ret_inv in H. destruct H as [b [_ H]].
    unfold MatchQueryConstructor_get_query in H. ret_inv H.
    eexists; reflexivity.
  - exists [VStr "hinglish11"; VStr "student"; VStr "Mangu Singh"; VList [VStr "name^2"]], [].
    eexists; reflexivity.
  - intros depth args kw v H. unfold get_query in H.
    destruct depth as [| depth]; [discriminate H |].
    cbn [get_query_at] in H.
    apply rbind_Ret_inv in H. destruct H as [b [_ H]].
    unfold MultiMatchQueryConstructor_get_query in H. ret_inv H.
    eexists; reflexivity.
  - exists [VStr "hinglish11"; VStr "student"; VStr "student"], [("marks", VInt 44)].
    eexists; reflexivity.
  - intros depth args kw v H. unfold get_query in H.
    destruct depth as [| depth]; [discriminate H |].
    cbn [get_query_at] in H.
    apply rbind_Ret_inv in H. destruct H as [b [_ H]].
    unfold NestedQueryConstructor_get_query in H. ret_inv H.
    eexists; reflexivity.
Qed.

(** C1.  The factory builds the term, match, multi_match and nested
    builders, and each returns nothing but a dict with the one key of its
    clause.  It builds the must, should and bool builders too, whose
    [get_query] raises on every call.  It has no case for the tag filter,
    although the class [FilterQueryConstructor] exists and the client has
    a [filter] method: the assertion fails. *)
Theorem construct_builders_one_key :
  builds_clause "term" TermQueryConstructor /\
  builds_clause "match" MatchQueryConstructor /\
  builds_clause "multi_match" MultiMatchQueryConstructor /\
  builds_clause "nested" NestedQueryConstructor /\
  (construct (VStr "must") [] = Ret MustQueryConstructor /\
   never_returns MustQueryConstructor) /\
  (construct (VStr "should") [] = Ret ShouldQueryConstructor /\
   never_returns ShouldQueryConstructor) /\
  (construct (VStr "bool") [] = Ret BoolQueryConstructor /\
   never_returns BoolQueryConstructor) /\
  construct (VStr "filter") []
  = Raise (AssertionError "Unsupported type received as argument: filter").
Proof.
  assert (C : forall c,
             In c [MustQueryConstructor; ShouldQueryConstructor;
                   FilterQueryConstructor; BoolQueryConstructor] ->
             never_returns c).
  { intros c I depth args kw. apply get_query_combinator_raises. exact I. }
  split; [apply leaf_builds_one_key; simpl; tauto |].
  split; [apply leaf_builds_one_key; simpl; tauto |].
  split; [apply leaf_builds_one_key; simpl; tauto |].
  split; [apply leaf_builds_one_key; simpl; tauto |].
  split; [split; [reflexivity | apply C; simpl; tauto] |].
  split; [split; [reflexivity | apply C; simpl; tauto] |].
  split; [split; [reflexivity | apply C; simpl; tauto] |].
  reflexivity.
Qed.

(** C6.  For every value that is none of the tags [construct] compares its
    argument with, and so for every value outside the tags of the
    specification, the assertion of [construct] fails with a message that
    ends with the text of the value, and [construct] returns no builder.
    The failed assertion is what the specification calls
    UnsupportedTypeError. *)
Theorem construct_unsupported (type : value) (kw : kwargs) :
  (forall tag, In tag recognized_tags -> type <> VStr tag) ->
  construct type kw
  = Raise (AssertionError ("Unsupported type received as argument: " ++ py_str type)).
Proof.
  intros H. unfold construct.
  assert (E : forall tag, In tag recognized_tags -> py_eq_str type tag = false).
  { intros tag I. destruct type as [| b | n | s | l | d]; try reflexivity.
    simpl. destruct (String.eqb_spec s tag) as [-> | N]; [| reflexivity].
    exfalso. exact (H tag I eq_refl). }
  rewrite !E by (simpl; tauto).
  reflexivity.
Qed.

Lemma construct_unsupported_witness :
  (forall tag, In tag recognized_tags -> VStr "range" <> VStr tag) /\
  construct (VStr "range") []
  = Raise (AssertionError "Unsupported type received as argument: range").
Proof.
  assert (H : forall tag, In tag recognized_tags -> VStr "range" <> VStr tag).
  { intros tag I. simpl in I.
    destruct I as [<- | [<- | [<- | [<- | [<- | [<- | [<- | []]]]]]]]; discriminate. }
  split; [exact H | exact (construct_unsupported (VStr "range") [] H)].
Defined.

(** Each of these tags has its builder. *)
Lemma construct_recognized (tag : string) :
  In tag recognized_tags -> exists c, construct (VStr tag) [] = Ret c.
Proof.
  intros I. simpl in I.
  destruct I as [<- | [<- | [<- | [<- | [<- | [<- | [<- | []]]]]]]];
    eexists; reflexivity.
Qed.

(** ** Term and match *)

Lemma py_items_Raise (v : value) (e : exn) :
  py_items v = Raise e -> is_assertion e = false.
Proof. destruct v; simpl; intros H; try discriminate H; injection H as <-; reflexivity. Qed.

Lemma update_pair_Raise (x : value) (e : exn) :
  update_pair x = Raise e -> is_assertion e = false.
Proof.
  destruct x as [| b | n | s | l | d]; simpl.
  - intros H. injection H as <-. reflexivity.
  - intros H. injection H as <-. reflexivity.
  - intros H. injection H as <-. reflexivity.
  - destruct s as [| a [| b [| c s]]]; intros H; try discriminate H;
      injection H as <-; reflexivity.
  - destruct l as [| a [| b [| c l]]]; intros H; try discriminate H;
      injection H as <-; reflexivity.
  - destruct d as [| [a x] [| [b y] [| c d]]]; intros H; try discriminate H;
      injection H as <-; reflexivity.
Qed.

Lemma update_from_pairs_Raise (l : list value) :
  forall (d : dict) (e : exn),
    update_from_pairs d l = Raise e -> is_assertion e = false.
Proof.
  induction l as [| x l IH]; simpl; intros d e H; [discriminate H |].
  destruct (update_pair x) as [kv | e'] eqn:P; simpl in H.
  - destruct (hashable (fst kv)); [exact (IH _ _ H) |].
    injection H as <-. reflexivity.
  - injection H as <-. exact (update_pair_Raise _ _ P).
Qed.

(** [dict.update] fails no assertion. *)
Lemma dict_update_Raise (d : dict) (other : value) (e : exn) :
  dict_update d other = Raise e -> is_assertion e = false.
Proof.
  destruct other as [| b | n | s | l | o]; simpl; intros H.
  - injection H as <-. reflexivity.
  - injection H as <-. reflexivity.
  - injection H as <-. reflexivity.
  - destruct s; [discriminate H | injection H as <-; reflexivity].
  - exact (update_from_pairs_Raise _ _ _ H).
  - discriminate H.
Qed.

(** X11.  The assertion of the term and match builders fails exactly when
    the call has no keyword argument: whatever else goes wrong, a value
    without [items] or additional parameters that cannot be merged, is an
    error of another kind. *)
Lemma term_match_assertion_iff (index mapping : value) (values : kwargs) :
  ((exists msg, TermQueryConstructor_get_query index mapping values
                = Raise (AssertionError msg)) <-> values = []) /\
  ((exists msg, MatchQueryConstructor_get_query index mapping values
                = Raise (AssertionError msg)) <-> values = []).
Proof.
  unfold TermQueryConstructor_get_query, MatchQueryConstructor_get_query.
  split; (split; [| intros ->; eexists; reflexivity]);
    (destruct values as [| kv values]; [reflexivity |]);
    intros [msg H]; exfalso; revert H; cbn [kw_empty negb py_assert rbind];
    (destruct (py_items _) as [items | e1] eqn:I; cbn [rbind];
     [| intros H; injection H as ->; apply py_items_Raise in I; discriminate I]);
    (destruct (dict_update _ _) as [d | e2] eqn:U; cbn [rbind];
     [discriminate |
      intros H; injection H as ->; apply dict_update_Raise in U; discriminate U]).
Qed.

(** The keyword route: called without any keyword argument the term and
    match builders fail their assertion; called with marks=44, as keywords
    or as the dict [query_params], they return the clause that holds
    marks: 44. *)
Lemma term_match_empty_and_marks (depth : nat) (index mapping : value) :
  get_query (S depth) TermQueryConstructor [index; mapping] []
  = Raise (AssertionError "Invalid values received as argument: {}") /\
  get_query (S depth) MatchQueryConstructor [index; mapping] []
  = Raise (AssertionError "Invalid values received as argument: {}") /\
  get_query (S depth) TermQueryConstructor [index; mapping] [("marks", VInt 44)]
  = Ret (VDict [(VStr "term", VDict [(VStr "marks", VInt 44)])]) /\
  get_query (S depth) MatchQueryConstructor [index; mapping] [("marks", VInt 44)]
  = Ret (VDict [(VStr "match", VDict [(VStr "marks", VInt 44)])]) /\
  get_query (S depth) TermQueryConstructor [index; mapping]
    [("query_params", VDict [(VStr "marks", VInt 44)])]
  = Ret (VDict [(VStr "term", VDict [(VStr "marks", VInt 44)])]) /\
  get_query (S depth) MatchQueryConstructor [index; mapping]
    [("query_params", VDict [(VStr "marks", VInt 44)])]
  = Ret (VDict [(VStr "match", VDict [(VStr "marks", VInt 44)])]).
Proof. repeat split. Qed.

(** C7.  The assertion of the term and match builders is on the keyword
    arguments as a whole.  It rejects empty query parameters when they come
    as the keywords themselves, since there is no keyword then.  It misses
    them when they come as the dict [query_params]: with an empty
    [query_params], alone or beside an empty [additional_query_params],
    the call passes the assertion and returns an empty clause instead of
    failing. *)
Theorem term_match_empty_query_params_accepted
  (depth : nat) (index mapping : value) :
  get_query (S depth) TermQueryConstructor [index; mapping]
    [("query_params", VDict []); ("additional_query_params", VDict [])]
  = Ret (VDict [(VStr "term", VDict [])]) /\
  get_query (S depth) MatchQueryConstructor [index; mapping]
    [("query_params", VDict []); ("additional_query_params", VDict [])]
  = Ret (VDict [(VStr "match", VDict [])]) /\
  get_query (S depth) TermQueryConstructor [index; mapping] [("query_params", VDict [])]
  = Ret (VDict [(VStr "term", VDict [])]) /\
  get_query (S depth) MatchQueryConstructor [index; mapping] [("query_params", VDict [])]
  = Ret (VDict [(VStr "match", VDict [])]) /\
  get_query (S depth) TermQueryConstructor [index; mapping] []
  = Raise (AssertionError "Invalid values received as argument: {}") /\
  get_query (S depth) MatchQueryConstructor [index; mapping] []
  = Raise (AssertionError "Invalid values received as argument: {}").
Proof. repeat split. Qed.

(** ** The combinators, again *)

(** C2.  The must builder applied to a mapping from term to marks: 44
    raises a [TypeError]: the loop of the mixin calls [get_query] of the
    sub-builder with the configuration as its only argument, and
    [mapping] is missing.  No combinator returns, whatever the call. *)
Theorem combinators_never_return :
  (forall depth index mapping,
      get_query (S (S (S depth))) MustQueryConstructor [index; mapping]
        [("query_types", VDict [(VStr "term", VDict [(VStr "marks", VInt 44)])])]
      = Raise (TypeError (MissingArguments ["mapping"]))) /\
  never_returns MustQueryConstructor /\
  never_returns ShouldQueryConstructor /\
  never_returns FilterQueryConstructor /\
  never_returns BoolQueryConstructor.
Proof.
  split; [reflexivity |].
  repeat split; intros depth args kw; apply get_query_combinator_raises;
    simpl; tauto.
Qed.

(** C4.  The bool builder raises a [TypeError] as soon as its arguments
    are bound: its [super] call names [FilterQueryConstructor], of which
    the builder is no instance.  It wraps nothing under the key bool. *)
Theorem bool_get_query_raises :
  (forall depth index mapping query_types,
      get_query (S depth) BoolQueryConstructor [index; mapping]
        [("query_types", query_types)]
      = Raise (TypeError SuperNotInstance)) /\
  never_returns BoolQueryConstructor.
Proof.
  split; [reflexivity |].
  intros depth args kw. apply get_query_combinator_raises. simpl. tauto.
Qed.

(** ** The nested method of the client *)

(** Without a keyword [path], a call of the nested builder with [index]
    and [mapping] alone cannot be bound. *)
Lemma bind_call_nested_no_path (index mapping : value) (kw : kwargs) :
  kw_lookup "path" kw = None ->
  exists why,
    bind_call (get_query_signature NestedQueryConstructor) [index; mapping] kw
    = Raise (TypeError why).
Proof.
  intros P. unfold bind_call. simpl bind_positional. cbn [fst snd].
  destruct (bind_keywords _ _ [] kw) as [[s' rest'] | e] eqn:K; cbn [rbind].
  - pose proof (bind_keywords_slot_kept _ "path" _ _ _ _ _ K P) as S.
    simpl in S.
    pose proof (missing_unfilled "path" [] s' S eq_refl) as M.
    cbn [fst snd get_query_signature defaults].
    destruct (missing (apply_defaults [] s')) as [| n names];
      [contradiction M; reflexivity |].
    eexists; reflexivity.
  - destruct (bind_keywords_Raise _ _ _ _ _ K) as [why ->].
    eexists; reflexivity.
Qed.

Lemma get_query_nested_no_path (depth : nat) (index mapping : value) (kw : kwargs) :
  kw_lookup "path" kw = None ->
  exists why,
    get_query (S depth) NestedQueryConstructor [index; mapping] kw
    = Raise (TypeError why).
Proof.
  intros P. unfold get_query. cbn [get_query_at].
  destruct (bind_call_nested_no_path index mapping kw P) as [why ->].
  eexists; reflexivity.
Qed.

(** The parameters of [_query] when it is given its three arguments by
    position. *)
Lemma bind_call_query_Ret (type index mapping : value) (kw p rest : kwargs) :
  bind_call _query_signature [type; index; mapping] kw = Ret (p, rest) ->
  p = [("type", type); ("index", index); ("mapping", mapping)].
Proof.
  unfold bind_call. simpl bind_positional. cbn [fst snd].
  destruct (bind_keywords _ _ [] kw) as [[s' rest'] | e] eqn:K; cbn [rbind];
    [| discriminate].
  apply bind_keywords_all_filled in K; [| reflexivity].
  subst s'. simpl. intros H. injection H as <- _. reflexivity.
Qed.

Lemma call_query_nested_no_path (depth : nat) (index mapping : value) (kw : kwargs) :
  kw_lookup "path" kw = None ->
  exists why,
    call_query (S depth) [VStr "nested"; index; mapping] kw = Raise (TypeError why).
Proof.
  intros P. unfold call_query.
  destruct (bind_call _query_signature [VStr "nested"; index; mapping] kw)
    as [[p rest] | e] eqn:B; cbn [rbind].
  - pose proof (bind_call_rest _ _ _ _ _ "path" B (or_intror P)) as P'.
    apply bind_call_query_Ret in B. subst p.
    cbn [fst snd]. unfold _query.
    change (construct (arg _ "type") []) with (Ret NestedQueryConstructor).
    cbn [rbind].
    change (arg _ "index") with index. change (arg _ "mapping") with mapping.
    destruct (get_query_nested_no_path depth index mapping rest P') as [why ->].
    eexists; reflexivity.
  - destruct (bind_call_Raise _ _ _ _ B) as [why ->].
    eexists; reflexivity.
Qed.

(** C3.  The nested method of the client binds [path] and calls [_query]
    without it, so no call returns: every call ends in a [TypeError].
    When the call itself is well formed (index, mapping and path by
    position, and keywords that are no parameter names), the error is
    that of the nested builder, whose [path] is missing. *)
Theorem nested_never_forwards_path (depth : nat) (self : ElasticSearchQueryEngine) :
  (forall args kw,
      exists why, nested (S depth) self args kw = Raise (TypeError why)) /\
  (forall index mapping path values,
      NoDup (map fst values) ->
      (forall k, In k ["self"; "type"; "index"; "mapping"; "path"] ->
                 kw_lookup k values = None) ->
      nested (S depth) self [index; mapping; path] values
      = Raise (TypeError (MissingArguments ["path"]))).
Proof.
  split.
  - intros args kw. unfold nested.
    destruct (bind_call (get_query_signature NestedQueryConstructor) args kw)
      as [[p rest] | e] eqn:B; cbn [rbind].
    + assert (P : kw_lookup "path" rest = None).
      { apply (bind_call_rest _ _ _ _ _ "path" B). left. simpl. tauto. }
      cbn [fst snd].
      destruct (call_query_nested_no_path depth (arg p "index") (arg p "mapping") rest P)
        as [why ->].
      eexists; reflexivity.
    + destruct (bind_call_Raise _ _ _ _ B) as [why ->].
      eexists; reflexivity.
  - intros index mapping path values ND F.
    pose proof (bind_keywords_call_fresh (get_query_signature NestedQueryConstructor)
                  [index; mapping; path] values ND) as E1.
    pose proof (bind_keywords_call_fresh _query_signature
                  [VStr "nested"; index; mapping] values ND) as E2.
    pose proof (bind_keywords_call_fresh (get_query_signature NestedQueryConstructor)
                  [index; mapping] values ND) as E3.
    simpl in E1, E2, E3.
    unfold nested, bind_call. simpl.
    rewrite E1 by (intros k I; apply F; simpl; tauto).
    unfold arg, kw_get. simpl. unfold call_query, bind_call. simpl.
    rewrite E2 by (intros k I; apply F; simpl; tauto).
    unfold arg, kw_get. simpl. unfold _query, get_query. simpl.
    unfold bind_call. simpl.
    rewrite E3 by (intros k I; apply F; simpl; tauto).
    reflexivity.
Qed.

Lemma nested_never_forwards_path_witness :
  NoDup (map fst [("marks", VInt 44)]) /\
  (forall k, In k ["self"; "type"; "index"; "mapping"; "path"] ->
             kw_lookup k [("marks", VInt 44)] = None) /\
  nested 1 {| _host := VStr "http://localhost"; _port := VInt 9200 |}
    [VStr "hinglish11"; VStr "student/_search"; VStr "student"] [("marks", VInt 44)]
  = Raise (TypeError (MissingArguments ["path"])).
Proof.
  assert (ND : NoDup (map fst [("marks", VInt 44)])).
  { simpl. constructor; [simpl; tauto | constructor]. }
  assert (F : forall k, In k ["self"; "type"; "index"; "mapping"; "path"] ->
                        kw_lookup k [("marks", VInt 44)] = None).
  { intros k I. simpl in I.
    destruct I as [<- | [<- | [<- | [<- | [<- | []]]]]]; reflexivity. }
  split; [exact ND |]. split; [exact F |].
  exact (proj2 (nested_never_forwards_path 0
                  {| _host := VStr "http://localhost"; _port := VInt 9200 |})
           (VStr "hinglish11") (VStr "student/_search") (VStr "student")
           [("marks", VInt 44)] ND F).
Defined.

(** ** From calls to bodies *)

(** A call with [index] and [mapping] by position, and keywords that are
    no parameter names, runs the body of the builder on those keywords. *)
Lemma get_query_term_bound (depth : nat) (index mapping : value) (values : kwargs) :
  NoDup (map fst values) ->
  (forall k, In k ["self"; "index"; "mapping"] -> kw_lookup k values = None) ->
  get_query (S depth) TermQueryConstructor [index; mapping] values
  = TermQueryConstructor_get_query index mapping values /\
  get_query (S depth) MatchQueryConstructor [index; mapping] values
  = MatchQueryConstructor_get_query index mapping values.
Proof.
  intros ND F.
  pose proof (bind_keywords_call_fresh (get_query_signature TermQueryConstructor)
                [index; mapping] values ND F) as E.
  simpl in E.
  split; unfold get_query; cbn [get_query_at]; unfold bind_call; simpl;
    rewrite E; reflexivity.
Qed.

Lemma get_query_nested_bound (depth : nat) (index mapping path : value) (values : kwargs) :
  NoDup (map fst values) ->
  (forall k, In k ["self"; "index"; "mapping"; "path"] -> kw_lookup k values = None) ->
  get_query (S depth) NestedQueryConstructor [index; mapping; path] values
  = NestedQueryConstructor_get_query index mapping path values.
Proof.
  intros ND F.
  pose proof (bind_keywords_call_fresh (get_query_signature NestedQueryConstructor)
                [index; mapping; path] values ND F) as E.
  simpl in E.
  unfold get_query; cbn [get_query_at]; unfold bind_call; simpl.
  rewrite E. reflexivity.
Qed.

(** ** Keyword arguments as query parameters *)

Lemma kw_lookup_nonempty (k : string) (v : value) (kw : kwargs) :
  kw_lookup k kw = Some v -> kw_empty kw = false.
Proof. destruct kw; [discriminate | reflexivity]. Qed.




(** ** The request body *)

(** C5.  With marks=44 and a dict [other_params] that asks for size 100,
    as in the example call of [engine.py], [_query] merges size at the
    top of the body, and the term builder, which is given the same
    keyword arguments, also puts the whole of [other_params] in the
    clause: the clause is not the one that marks=44 alone gives. *)
Theorem query_other_params_in_clause (depth : nat) (index mapping : value) :
  _query (S depth) (VStr "term") index mapping
    [("marks", VInt 44); ("other_params", VDict [(VStr "size", VInt 100)])]
  = Ret (VDict [(VStr "query",
                 VDict [(VStr "term",
                         VDict [(VStr "marks", VInt 44);
                                (VStr "other_params", VDict [(VStr "size", VInt 100)])])]);
                (VStr "size", VInt 100)]) /\
  _query (S depth) (VStr "term") index mapping [("marks", VInt 44)]
  = Ret (VDict [(VStr "query", VDict [(VStr "term", VDict [(VStr "marks", VInt 44)])])]).
Proof. split; reflexivity. Qed.

(** The same through the method of the client. *)
Lemma term_query_other_params_in_clause
  (depth : nat) (self : ElasticSearchQueryEngine) (index mapping : value) :
  term_query (S depth) self [index; mapping]
    [("marks", VInt 44); ("other_params", VDict [(VStr "size", VInt 100)])]
  = Ret (send_request self (format_index_mapping index mapping) "get" (VDict [])
           (VDict [(VStr "query",
                    VDict [(VStr "term",
                            VDict [(VStr "marks", VInt 44);
                                   (VStr "other_params",
                                    VDict [(VStr "size", VInt 100)])])]);
                   (VStr "size", VInt 100)])).
Proof. reflexivity. Qed.

(** X16.  When [query_params] is given, the term and match builders read
    that keyword and [additional_query_params] only: every other keyword,
    [other_params] among them, stays out of the clause and changes
    nothing. *)
Lemma explicit_query_params_only (index mapping qp : value) (values : kwargs) :
  kw_lookup "query_params" values = Some qp ->
  let kw := (("query_params", qp)
               :: keyword "additional_query_params"
                    (kw_lookup "additional_query_params" values))%list in
  TermQueryConstructor_get_query index mapping values
  = TermQueryConstructor_get_query index mapping kw /\
  MatchQueryConstructor_get_query index mapping values
  = MatchQueryConstructor_get_query index mapping kw.
Proof.
  intros Q kw.
  assert (G : kw_get values "query_params" (kwargs_value values) = qp).
  { unfold kw_get. rewrite Q. reflexivity. }
  assert (A : kw_get kw "additional_query_params" (VDict [])
              = kw_get values "additional_query_params" (VDict [])).
  { unfold kw, kw_get. simpl.
    destruct (kw_lookup "additional_query_params" values); reflexivity. }
  unfold TermQueryConstructor_get_query, MatchQueryConstructor_get_query.
  rewrite (kw_lookup_nonempty _ _ _ Q), G, A.
  split; reflexivity.
Qed.

(** ** The nested builder *)

Lemma append_inj_l (p a b : string) : p ++ a = p ++ b -> a = b.
Proof.
  induction p as [| c p IH]; simpl; intros H; [exact H |].
  injection H as H. exact (IH H).
Qed.

Lemma NoDup_map_prefix (p : string) (l : list string) :
  NoDup l -> NoDup (map (fun s => p ++ s) l).
Proof.
  induction 1 as [| x l N _ IH]; simpl; constructor; [| exact IH].
  intros I. apply in_map_iff in I. destruct I as [y [E I]].
  apply append_inj_l in E. subst y. exact (N I).
Qed.

(** The example of the specification, as a call and as the dict
    [query_params]. *)
Example nested_student_marks (depth : nat) (index mapping : value) :
  get_query (S depth) NestedQueryConstructor [index; mapping; VStr "student"]
    [("marks", VInt 44)]
  = Ret (VDict
           [(VStr "nested",
             VDict [(VStr "path", VStr "student");
                    (VStr "query", VDict [(VStr "student.marks", VInt 44)])])]) /\
  get_query (S depth) NestedQueryConstructor [index; mapping; VStr "student"]
    [("query_params", VDict [(VStr "marks", VInt 44)])]
  = Ret (VDict
           [(VStr "nested",
             VDict [(VStr "path", VStr "student");
                    (VStr "query", VDict [(VStr "student.marks", VInt 44)])])]).
Proof. split; reflexivity. Qed.

(** ** The multi_match builder *)

(** The example of the specification. *)
Example multi_match_mangu_singh (depth : nat) (index mapping : value) :
  get_query (S depth) MultiMatchQueryConstructor
    [index; mapping; VStr "Mangu Singh"; VList [VStr "name^2"; VStr "school^1.2"]] []
  = Ret (VDict
           [(VStr "multi_match",
             VDict [(VStr "query", VStr "Mangu Singh");
                    (VStr "fields", VList [VStr "name^2"; VStr "school^1.2"]);
                    (VStr "type", VStr "cross_fields")])]).
Proof. reflexivity. Qed.

(** ** Texts *)

Example repr_nested_value :
  py_str (VDict [(VStr "term", VDict [(VStr "marks", VInt 44)]);
                 (VInt (-1), VList [VNone; VBool true; VStr (String squote "a")])])
  = "{'term': {'marks': 44}, -1: [None, True, " ++ String dquote (String squote "a")
      ++ String dquote "]}".
Proof. reflexivity. Qed.

(** ** The shape of the request body *)

(** Whenever [_query] returns, the body is the dict that holds the clause
    of the builder under the key query, updated with [other_params]; the
    builder is given the same keyword arguments, [other_params] among
    them. *)
Lemma query_body_shape (depth : nat) (type index mapping : value) (kw : kwargs) (body : value) :
  _query depth type index mapping kw = Ret body ->
  exists c clause merged,
    construct type [] = Ret c /\
    get_query depth c [index; mapping] kw = Ret clause /\
    dict_update [(VStr "query", clause)] (kw_get kw "other_params" (VDict [])) = Ret merged /\
    body = VDict merged.
Proof.
  unfold _query. intros H.
  apply rbind_Ret_inv in H. destruct H as [c [C H]].
  apply rbind_Ret_inv in H. destruct H as [clause [G H]].
  apply rbind_Ret_inv in H. destruct H as [merged [U H]].
  injection H as <-.
  exists c, clause, merged. repeat split; assumption.
Qed.


(** * Further properties of the code *)

(** ** Well-formed dicts *)

Lemma existsb_key_false (k : value) (d : dict) :
  existsb (fun kv => key_eqb (fst kv) k) d = false ->
  forall kv, In kv d -> key_eqb (fst kv) k = false.
Proof.
  induction d as [| [k1 v1] d IH]; simpl; intros H kv I; [contradiction |].
  apply orb_false_iff in H. destruct H as [H1 H2].
  destruct I as [<- | I]; [exact H1 | exact (IH H2 kv I)].
Qed.

Lemma dict_lookup_Some_key (k v : value) (d : dict) :
  dict_lookup k d = Some v -> exists kv, In kv d /\ key_eqb (fst kv) k = true.
Proof.
  induction d as [| [k1 v1] d IH]; simpl; [discriminate |].
  destruct (key_eqb k1 k) eqn:E.
  - intros _. exists (k1, v1). split; [left; reflexivity | exact E].
  - intros H. destruct (IH H) as [kv [I K]]. exists kv. split; [right; exact I | exact K].
Qed.

(** With keys that differ, the merge reads a key in [other] first and in
    [d] otherwise. *)
Lemma dict_lookup_merge (k : value) (other : dict) :
  forall d : dict,
    dict_wf other = true ->
    dict_lookup k (dict_merge d other) =
    match dict_lookup k other with
    | Some v => Some v
    | None => dict_lookup k d
    end.
Proof.
  unfold dict_merge.
  induction other as [| [k1 v1] other IH]; simpl; intros d W; [reflexivity |].
  apply andb_true_iff in W. destruct W as [W W2].
  apply andb_true_iff in W. destruct W as [_ W1].
  apply negb_true_iff in W1.
  rewrite (IH _ W2), dict_lookup_set.
  destruct (key_eqb k1 k) eqn:E; [| reflexivity].
  destruct (dict_lookup k other) as [v |] eqn:L; [| reflexivity].
  exfalso. destruct (dict_lookup_Some_key _ _ _ L) as [kv [I K]].
  pose proof (existsb_key_false _ _ W1 kv I) as F.
  rewrite key_eqb_sym in E.
  rewrite (key_eqb_trans _ _ _ K E) in F. discriminate F.
Qed.

Lemma fold_dict_set_wf (items : dict) :
  forall done : dict,
    dict_wf items = true ->
    (forall kv kv', In kv done -> In kv' items -> key_eqb (fst kv) (fst kv') = false) ->
    fold_left (fun acc kv => dict_set acc (fst kv) (snd kv)) items done
    = (done ++ items)%list.
Proof.
  induction items as [| [k v] items IH]; simpl; intros done W F.
  - rewrite app_nil_r. reflexivity.
  - apply andb_true_iff in W. destruct W as [W W2].
    apply andb_true_iff in W. destruct W as [_ W1].
    apply negb_true_iff in W1.
    rewrite dict_set_fresh.
    + rewrite IH.
      * rewrite <- app_assoc. reflexivity.
      * exact W2.
      * intros kv kv' I I'. apply in_app_or in I. destruct I as [I | [<- | []]].
        -- apply (F kv kv' I). right. exact I'.
        -- simpl. rewrite key_eqb_sym. exact (existsb_key_false _ _ W1 kv' I').
    + intros kv I. apply (F kv (k, v) I). left. reflexivity.
Qed.

(** The comprehension [{col: val for col, val in d.items()}] copies a
    dict. *)
Lemma dict_comprehension_copy (d : dict) :
  dict_wf d = true -> dict_comprehension (fun col => col) d = d.
Proof.
  intros W. unfold dict_comprehension.
  apply (fold_dict_set_wf d [] W). intros kv kv' [].
Qed.

Lemma dict_set_keeps (k k' v : value) (d : dict) :
  dict_lookup k d <> None -> dict_lookup k (dict_set d k' v) <> None.
Proof.
  intros H. rewrite dict_lookup_set.
  destruct (key_eqb k' k); [discriminate | exact H].
Qed.

Lemma update_from_pairs_keeps (k : value) (l : list value) :
  forall d d' : dict,
    dict_lookup k d <> None ->
    update_from_pairs d l = Ret d' -> dict_lookup k d' <> None.
Proof.
  induction l as [| x l IH]; simpl; intros d d' H U.
  - injection U as <-. exact H.
  - destruct (update_pair x) as [kv | e]; simpl in U; [| discriminate U].
    destruct (hashable (fst kv)); [| discriminate U].
    apply (IH _ _ (dict_set_keeps k _ _ _ H) U).
Qed.

(** [dict.update] removes no key. *)
Lemma dict_update_keeps (k : value) (d d' : dict) (other : value) :
  dict_lookup k d <> None ->
  dict_update d other = Ret d' -> dict_lookup k d' <> None.
Proof.
  intros H. destruct other as [| b | n | s | l | o]; simpl; try discriminate.
  - destruct s; [| discriminate]. intros U. injection U as <-. exact H.
  - apply update_from_pairs_keeps. exact H.
  - intros U. injection U as <-. unfold dict_merge.
    revert d H. induction o as [| [k1 v1] o IH]; simpl; intros d H; [exact H |].
    apply IH. apply dict_set_keeps. exact H.
Qed.

(** ** What the factory returns *)

Lemma construct_Ret_table (type : value) (kw : kwargs) (c : class) :
  construct type kw = Ret c -> kw = [] /\ In (type, c) builder_table.
Proof.
  unfold construct. intros H. destruct kw as [| kv kw].
  - split; [reflexivity |].
    destruct type as [| b | n | s | l | d]; simpl in H; try discriminate H.
    repeat match type of H with
           | context [(s =? ?t)%string] =>
               destruct (String.eqb_spec s t) as [-> | _];
               [injection H as <-; simpl; tauto |]
           end.
    discriminate H.
  - exfalso.
    repeat match type of H with
           | context [py_eq_str type ?t] => destruct (py_eq_str type t)
           end; discriminate H.
Qed.

(** X1.  [construct] returns a builder exactly when it is given no keyword
    argument and one of its seven tags, and the builder is then the class
    of that tag.  It never returns [FilterQueryConstructor], the mixin or
    the base class, and a keyword argument makes every call fail. *)
Theorem construct_returns_iff (type : value) (kw : kwargs) (c : class) :
  construct type kw = Ret c <-> kw = [] /\ In (type, c) builder_table.
Proof.
  split.
  - apply construct_Ret_table.
  - intros [-> I]. simpl in I.
    destruct I as [E | [E | [E | [E | [E | [E | [E | []]]]]]]];
      injection E as <- <-; reflexivity.
Qed.

(** ** The errors of the combinators *)

Lemma get_query_at_mixin_first
  (depth : nat) (self : class) (index mapping t cfg : value) (items : dict) :
  get_query_at (S (S depth)) ConditionalQueryMixin self [index; mapping]
    [("query_types", VDict ((t, cfg) :: items))]
  = first_entry_outcome t.
Proof.
  unfold first_entry_outcome.
  destruct (construct t []) as [sub | e] eqn:C.
  - cbn -[construct]. rewrite C. destruct sub; reflexivity.
  - cbn -[construct]. rewrite C. reflexivity.
Qed.

Lemma first_entry_outcome_Raise (t : value) (k : value -> result value) :
  rbind (first_entry_outcome t) k = first_entry_outcome t.
Proof. unfold first_entry_outcome. destruct (construct t []); reflexivity. Qed.

(** X2.  With a non-empty dict of query types, the must, should and
    filter builders look at its first entry only, and raise: the
    assertion of [construct] when the first key is none of its tags, and
    otherwise the [TypeError] of the sub-builder, which is called with the
    configuration alone and lacks [mapping] and, for multi_match and
    nested, its other parameters.  The other entries play no part. *)
Theorem combinator_first_entry_decides
  (depth : nat) (index mapping t cfg : value) (items : dict) :
  get_query (S (S (S depth))) MustQueryConstructor [index; mapping]
    [("query_types", VDict ((t, cfg) :: items))] = first_entry_outcome t /\
  get_query (S (S (S depth))) ShouldQueryConstructor [index; mapping]
    [("query_types", VDict ((t, cfg) :: items))] = first_entry_outcome t /\
  get_query (S (S (S depth))) FilterQueryConstructor [index; mapping]
    [("query_types", VDict ((t, cfg) :: items))] = first_entry_outcome t.
Proof.
  unfold get_query. repeat split.
  - change (get_query_at (S (S (S depth))) MustQueryConstructor MustQueryConstructor
              [index; mapping] [("query_types", VDict ((t, cfg) :: items))])
      with (body <- get_query_at (S (S depth)) ConditionalQueryMixin MustQueryConstructor
                      [index; mapping] [("query_types", VDict ((t, cfg) :: items))] ;;
            Ret (VDict [(VStr "must", body)])).
    rewrite get_query_at_mixin_first. apply first_entry_outcome_Raise.
  - change (get_query_at (S (S (S depth))) ShouldQueryConstructor ShouldQueryConstructor
              [index; mapping] [("query_types", VDict ((t, cfg) :: items))])
      with (body <- get_query_at (S (S depth)) ConditionalQueryMixin ShouldQueryConstructor
                      [index; mapping] [("query_types", VDict ((t, cfg) :: items))] ;;
            Ret (VDict [(VStr "should", body)])).
    rewrite get_query_at_mixin_first. apply first_entry_outcome_Raise.
  - change (get_query_at (S (S (S depth))) FilterQueryConstructor FilterQueryConstructor
              [index; mapping] [("query_types", VDict ((t, cfg) :: items))])
      with (body <- get_query_at (S (S depth)) ConditionalQueryMixin FilterQueryConstructor
                      [index; mapping] [("query_types", VDict ((t, cfg) :: items))] ;;
            Ret (VDict [(VStr "filter", body)])).
    rewrite get_query_at_mixin_first. apply first_entry_outcome_Raise.
Qed.

(** A call with [index] and [mapping] by position, and keywords that are
    no parameter names, runs the body of the method on those keywords:
    first that of the combinator, which wraps, then that of the mixin. *)
Lemma get_query_at_mixin_bound
  (depth : nat) (self : class) (index mapping : value) (kw : kwargs) :
  NoDup (map fst kw) ->
  (forall k, In k ["self"; "index"; "mapping"] -> kw_lookup k kw = None) ->
  get_query_at (S depth) ConditionalQueryMixin self [index; mapping] kw
  = ConditionalQueryMixin_get_query (fun c => get_query_at depth c c) index mapping kw.
Proof.
  intros ND F.
  pose proof (bind_keywords_call_fresh (get_query_signature ConditionalQueryMixin)
                [index; mapping] kw ND F) as E.
  simpl in E.
  cbn [get_query_at]. unfold bind_call. simpl. rewrite E. reflexivity.
Qed.

Lemma get_query_at_wrap_bound
  (depth : nat) (index mapping : value) (kw : kwargs) :
  NoDup (map fst kw) ->
  (forall k, In k ["self"; "index"; "mapping"] -> kw_lookup k kw = None) ->
  get_query_at (S depth) MustQueryConstructor MustQueryConstructor [index; mapping] kw
  = (body <- get_query_at depth ConditionalQueryMixin MustQueryConstructor
               [index; mapping] kw ;;
     Ret (VDict [(VStr "must", body)])) /\
  get_query_at (S depth) ShouldQueryConstructor ShouldQueryConstructor [index; mapping] kw
  = (body <- get_query_at depth ConditionalQueryMixin ShouldQueryConstructor
               [index; mapping] kw ;;
     Ret (VDict [(VStr "should", body)])) /\
  get_query_at (S depth) FilterQueryConstructor FilterQueryConstructor [index; mapping] kw
  = (body <- get_query_at depth ConditionalQueryMixin FilterQueryConstructor
               [index; mapping] kw ;;
     Ret (VDict [(VStr "filter", body)])).
Proof.
  intros ND F.
  pose proof (bind_keywords_call_fresh (get_query_signature ConditionalQueryMixin)
                [index; mapping] kw ND F) as E.
  simpl in E.
  repeat split; cbn [get_query_at]; unfold bind_call; simpl; rewrite E; reflexivity.
Qed.

Lemma get_query_combinator_bound
  (depth : nat) (index mapping : value) (kw : kwargs) :
  NoDup (map fst kw) ->
  (forall k, In k ["self"; "index"; "mapping"] -> kw_lookup k kw = None) ->
  get_query (S (S depth)) MustQueryConstructor [index; mapping] kw
  = (body <- ConditionalQueryMixin_get_query (fun c => get_query_at depth c c)
               index mapping kw ;;
     Ret (VDict [(VStr "must", body)])) /\
  get_query (S (S depth)) ShouldQueryConstructor [index; mapping] kw
  = (body <- ConditionalQueryMixin_get_query (fun c => get_query_at depth c c)
               index mapping kw ;;
     Ret (VDict [(VStr "should", body)])) /\
  get_query (S (S depth)) FilterQueryConstructor [index; mapping] kw
  = (body <- ConditionalQueryMixin_get_query (fun c => get_query_at depth c c)
               index mapping kw ;;
     Ret (VDict [(VStr "filter", body)])).
Proof.
  intros ND F. unfold get_query.
  destruct (get_query_at_wrap_bound (S depth) index mapping kw ND F) as [M [S' F']].
  rewrite M, S', F'.
  rewrite !(get_query_at_mixin_bound depth _ index mapping kw ND F).
  repeat split.
Qed.

(** X3.  Called with keywords that hold no truthy [query_types], the
    must, should and filter builders fail an assertion: the one on the
    keywords when there is none at all, and else the one on
    [query_types], whose message shows the value found, [None] when the
    keyword is absent. *)
Theorem combinator_guards (depth : nat) (index mapping : value) (kw : kwargs) :
  NoDup (map fst kw) ->
  (forall k, In k ["self"; "index"; "mapping"] -> kw_lookup k kw = None) ->
  py_bool (kw_get kw "query_types" VNone) = false ->
  forall c, In c [MustQueryConstructor; ShouldQueryConstructor; FilterQueryConstructor] ->
  get_query (S (S depth)) c [index; mapping] kw
  = Raise (AssertionError
             (if kw_empty kw then "Invalid kwargs received: {}"
              else "Invalid query_types received as argument: "
                   ++ py_str (kw_get kw "query_types" VNone))).
Proof.
  intros ND F Q c I.
  destruct (get_query_combinator_bound depth index mapping kw ND F) as [M [S' F']].
  assert (B : ConditionalQueryMixin_get_query (fun c => get_query_at depth c c)
                index mapping kw
              = Raise (AssertionError
                         (if kw_empty kw then "Invalid kwargs received: {}"
                          else "Invalid query_types received as argument: "
                               ++ py_str (kw_get kw "query_types" VNone)))).
  { unfold ConditionalQueryMixin_get_query.
    destruct kw as [| kv kw]; [reflexivity |].
    cbn [kw_empty negb py_assert rbind]. rewrite Q. reflexivity. }
  simpl in I. destruct I as [<- | [<- | [<- | []]]].
  - rewrite M, B. reflexivity.
  - rewrite S', B. reflexivity.
  - rewrite F', B. reflexivity.
Qed.

Lemma combinator_guards_witness :
  NoDup (map fst [("size", VInt 10)]) /\
  py_bool (kw_get [("size", VInt 10)] "query_types" VNone) = false /\
  get_query 2 MustQueryConstructor [VStr "hinglish11"; VStr "student/_search"]
    [("size", VInt 10)]
  = Raise (AssertionError "Invalid query_types received as argument: None").
Proof.
  assert (ND : NoDup (map fst [("size", VInt 10)])).
  { simpl. constructor; [simpl; tauto | constructor]. }
  assert (F : forall k, In k ["self"; "index"; "mapping"] ->
                        kw_lookup k [("size", VInt 10)] = None).
  { intros k I. simpl in I. destruct I as [<- | [<- | [<- | []]]]; reflexivity. }
  split; [exact ND |]. split; [reflexivity |].
  exact (combinator_guards 0 (VStr "hinglish11") (VStr "student/_search")
           [("size", VInt 10)] ND F eq_refl MustQueryConstructor (or_introl eq_refl)).
Defined.

(** ** The methods of the client *)

Lemma call_query_raises (tag : string) (depth : nat) (index mapping : value) (kw : kwargs) :
  (forall c, construct (VStr tag) [] = Ret c -> never_returns c) ->
  exists e, call_query depth [VStr tag; index; mapping] kw = Raise e.
Proof.
  intros H. unfold call_query.
  destruct (bind_call _query_signature [VStr tag; index; mapping] kw)
    as [[p rest] | e] eqn:B; cbn [rbind]; [| exists e; reflexivity].
  apply bind_call_query_Ret in B. subst p. cbn [fst snd]. unfold _query.
  change (arg _ "type") with (VStr tag).
  destruct (construct (VStr tag) []) as [c | e] eqn:C; cbn [rbind];
    [| exists e; reflexivity].
  destruct (H c eq_refl depth
              [arg [("type", VStr tag); ("index", index); ("mapping", mapping)] "index";
               arg [("type", VStr tag); ("index", index); ("mapping", mapping)] "mapping"]
              rest) as [e E].
  rewrite E. exists e. reflexivity.
Qed.

Lemma query_method_raises (tag : string) :
  (forall c, construct (VStr tag) [] = Ret c -> never_returns c) ->
  forall depth self args kw, exists e, query_method tag depth self args kw = Raise e.
Proof.
  intros H depth self args kw. unfold query_method.
  destruct (bind_call index_mapping_signature args kw) as [b | e]; cbn [rbind];
    [| exists e; reflexivity].
  destruct (call_query_raises tag depth (arg (fst b) "index") (arg (fst b) "mapping")
              (snd b) H) as [e E].
  rewrite E. exists e. reflexivity.
Qed.

(** X4.  The must, should, filter and bool methods of the client build no
    request: every call raises, whatever its arguments. *)
Theorem client_combinators_never_send
  (depth : nat) (self : ElasticSearchQueryEngine) (args : list value) (kw : kwargs) :
  (exists e, must depth self args kw = Raise e) /\
  (exists e, should depth self args kw = Raise e) /\
  (exists e, filter depth self args kw = Raise e) /\
  (exists e, bool_ depth self args kw = Raise e).
Proof.
  assert (C : forall c,
             In c [MustQueryConstructor; ShouldQueryConstructor;
                   FilterQueryConstructor; BoolQueryConstructor] ->
             never_returns c).
  { intros c I d a k. apply get_query_combinator_raises. exact I. }
  repeat split; apply query_method_raises; intros c E;
    try discriminate E; injection E as <-; apply C; simpl; tauto.
Qed.

(** X5.  A well-formed call of the filter method (index and mapping by
    position, keywords that are no parameter names) fails the assertion of
    [construct], which has no case for filter; a well-formed call of the
    bool method ends in the [TypeError] of the [super] call of the bool
    builder. *)
Theorem client_filter_bool_errors
  (depth : nat) (self : ElasticSearchQueryEngine) (index mapping : value) (kw : kwargs) :
  NoDup (map fst kw) ->
  (forall k, In k ["self"; "type"; "index"; "mapping"] -> kw_lookup k kw = None) ->
  filter depth self [index; mapping] kw
  = Raise (AssertionError "Unsupported type received as argument: filter") /\
  bool_ (S depth) self [index; mapping] kw = Raise (TypeError SuperNotInstance).
Proof.
  intros ND F.
  pose proof (bind_keywords_call_fresh index_mapping_signature [index; mapping] kw ND)
    as E1.
  pose proof (bind_keywords_call_fresh _query_signature [VStr "filter"; index; mapping] kw ND)
    as E2.
  pose proof (bind_keywords_call_fresh _query_signature [VStr "bool"; index; mapping] kw ND)
    as E3.
  simpl in E1, E2, E3.
  split.
  - unfold filter, query_method, bind_call. simpl.
    rewrite E1 by (intros k I; apply F; simpl; tauto).
    unfold arg, kw_get. simpl. unfold call_query, bind_call. simpl.
    rewrite E2 by (intros k I; apply F; simpl; tauto).
    reflexivity.
  - unfold bool_, query_method, bind_call. simpl.
    rewrite E1 by (intros k I; apply F; simpl; tauto).
    unfold arg, kw_get. simpl. unfold call_query, bind_call. simpl.
    rewrite E3 by (intros k I; apply F; simpl; tauto).
    unfold arg, kw_get. simpl. unfold _query, get_query. simpl.
    unfold bind_call. simpl.
    rewrite E1 by (intros k I; apply F; simpl; tauto).
    reflexivity.
Qed.

Lemma client_filter_bool_errors_witness :
  NoDup (map fst [("query_types", VDict [(VStr "term", VDict [(VStr "marks", VInt 44)])])]) /\
  filter 5 {| _host := VStr "http://localhost"; _port := VInt 9200 |}
    [VStr "hinglish11"; VStr "student/_search"]
    [("query_types", VDict [(VStr "term", VDict [(VStr "marks", VInt 44)])])]
  = Raise (AssertionError "Unsupported type received as argument: filter").
Proof.
  assert (ND : NoDup (map fst [("query_types",
                                VDict [(VStr "term", VDict [(VStr "marks", VInt 44)])])])).
  { simpl. constructor; [simpl; tauto | constructor]. }
  assert (F : forall k, In k ["self"; "type"; "index"; "mapping"] ->
                        kw_lookup k [("query_types",
                                      VDict [(VStr "term", VDict [(VStr "marks", VInt 44)])])]
                        = None).
  { intros k I. simpl in I. destruct I as [<- | [<- | [<- | [<- | []]]]]; reflexivity. }
  split; [exact ND |].
  exact (proj1 (client_filter_bool_errors 5
                  {| _host := VStr "http://localhost"; _port := VInt 9200 |}
                  (VStr "hinglish11") (VStr "student/_search") _ ND F)).
Defined.

(** ** What every request holds *)

Lemma call_query_Ret_query (depth : nat) (args : list value) (kw : kwargs) (body : value) :
  call_query depth args kw = Ret body ->
  exists d, body = VDict d /\ dict_lookup (VStr "query") d <> None.
Proof.
  unfold call_query. intros H.
  apply rbind_Ret_inv in H. destruct H as [b [_ H]].
  apply query_body_shape in H.
  destruct H as [c [clause [merged [_ [_ [U ->]]]]]].
  exists merged. split; [reflexivity |].
  assert (P : dict_lookup (VStr "query") [(VStr "query", clause)] <> None)
    by (simpl; discriminate).
  exact (dict_update_keeps _ _ _ _ P U).
Qed.

(** X8.  Whatever method of the client builds a request, the request is a
    GET with no headers of its own, and its JSON body is a dict that has
    an entry under the key query: nothing in [other_params] can remove
    it. *)
Theorem client_request_invariant
  (depth : nat) (self : ElasticSearchQueryEngine) (args : list value) (kw : kwargs)
  (r : request) :
  forall m, In m client_methods ->
  m depth self args kw = Ret r ->
  method_cb r = "get" /\ headers r = VDict [] /\
  exists body, json r = VDict body /\ dict_lookup (VStr "query") body <> None.
Proof.
  assert (Q : forall tag, query_method tag depth self args kw = Ret r ->
              method_cb r = "get" /\ headers r = VDict [] /\
              exists body, json r = VDict body /\ dict_lookup (VStr "query") body <> None).
  { intros tag H. unfold query_method in H.
    apply rbind_Ret_inv in H. destruct H as [b [_ H]].
    apply rbind_Ret_inv in H. destruct H as [body [B H]].
    injection H as <-. simpl.
    split; [reflexivity |]. split; [reflexivity |].
    destruct (call_query_Ret_query _ _ _ _ B) as [d [-> L]].
    exists d. split; [reflexivity | exact L]. }
  intros m I H. simpl in I.
  destruct I as [<- | [<- | [<- | [<- | [<- | [<- | [<- | [<- | []]]]]]]]];
    try (exact (Q _ H)).
  - unfold multi_match in H.
    apply rbind_Ret_inv in H. destruct H as [b [_ H]].
    apply rbind_Ret_inv in H. destruct H as [body [B H]].
    injection H as <-. simpl.
    split; [reflexivity |]. split; [reflexivity |].
    destruct (call_query_Ret_query _ _ _ _ B) as [d [-> L]].
    exists d. split; [reflexivity | exact L].
  - unfold nested in H.
    apply rbind_Ret_inv in H. destruct H as [b [_ H]].
    apply rbind_Ret_inv in H. destruct H as [body [B H]].
    injection H as <-. simpl.
    split; [reflexivity |]. split; [reflexivity |].
    destruct (call_query_Ret_query _ _ _ _ B) as [d [-> L]].
    exists d. split; [reflexivity | exact L].
Qed.

Lemma client_request_invariant_witness :
  In term_query client_methods /\
  term_query 1 {| _host := VStr "http://localhost"; _port := VInt 9200 |}
    [VStr "hinglish11"; VStr "student/_search"]
    [("marks", VInt 44); ("other_params", VDict [(VStr "query", VInt 0)])]
  = Ret {| method_cb := "get";
           url := "http://localhost:9200/hinglish11/student/_search";
           headers := VDict [];
           json := VDict [(VStr "query", VInt 0)] |} /\
  dict_lookup (VStr "query") [(VStr "query", VInt 0)] <> None.
Proof.
  assert (I : In term_query client_methods) by (left; reflexivity).
  split; [exact I |]. split; [reflexivity |].
  destruct (client_request_invariant 1
              {| _host := VStr "http://localhost"; _port := VInt 9200 |}
              [VStr "hinglish11"; VStr "student/_search"]
              [("marks", VInt 44); ("other_params", VDict [(VStr "query", VInt 0)])]
              _ term_query I eq_refl) as [_ [_ [body [E L]]]].
  simpl in E. injection E as <-. exact L.
Defined.

(** X9.  When [_query] returns and [other_params] is a dict, the body is
    the clause of the builder under the key query, merged with that dict:
    each key of [other_params] reads its value there, a key query of
    [other_params] takes the place of the clause, and there is no other
    key. *)
Theorem query_siblings
  (depth : nat) (type index mapping : value) (kw : kwargs) (other : dict) (body : value) :
  _query depth type index mapping kw = Ret body ->
  kw_get kw "other_params" (VDict []) = VDict other ->
  dict_wf other = true ->
  exists c clause,
    construct type [] = Ret c /\
    get_query depth c [index; mapping] kw = Ret clause /\
    body = VDict (dict_merge [(VStr "query", clause)] other) /\
    forall k,
      dict_lookup k (dict_merge [(VStr "query", clause)] other)
      = match dict_lookup k other with
        | Some v => Some v
        | None => if key_eqb (VStr "query") k then Some clause else None
        end.
Proof.
  intros H O W.
  apply query_body_shape in H.
  destruct H as [c [clause [merged [C [G [U ->]]]]]].
  rewrite O in U. simpl in U. injection U as <-.
  exists c, clause. split; [exact C |]. split; [exact G |].
  split; [reflexivity |].
  intros k. rewrite (dict_lookup_merge k other _ W). reflexivity.
Qed.

Lemma query_siblings_witness :
  _query 1 (VStr "match") (VStr "hinglish11") (VStr "student/_search")
    [("query_params", VDict [(VStr "name", VStr "Mangu Singh")]);
     ("other_params", VDict [(VStr "size", VInt 100)])]
  = Ret (VDict [(VStr "query", VDict [(VStr "match",
                                       VDict [(VStr "name", VStr "Mangu Singh")])]);
                (VStr "size", VInt 100)]) /\
  dict_wf [(VStr "size", VInt 100)] = true /\
  exists c clause,
    construct (VStr "match") [] = Ret c /\
    get_query 1 c [VStr "hinglish11"; VStr "student/_search"]
      [("query_params", VDict [(VStr "name", VStr "Mangu Singh")]);
       ("other_params", VDict [(VStr "size", VInt 100)])]
    = Ret clause /\
    dict_lookup (VStr "size") (dict_merge [(VStr "query", clause)] [(VStr "size", VInt 100)])
    = Some (VInt 100).
Proof.
  split; [reflexivity |]. split; [reflexivity |].
  destruct (query_siblings 1 (VStr "match") (VStr "hinglish11") (VStr "student/_search")
              [("query_params", VDict [(VStr "name", VStr "Mangu Singh")]);
               ("other_params", VDict [(VStr "size", VInt 100)])]
              [(VStr "size", VInt 100)] _ eq_refl eq_refl eq_refl)
    as [c [clause [C [G [_ L]]]]].
  exists c, clause. split; [exact C |]. split; [exact G |].
  rewrite L. reflexivity.
Defined.

(** ** Merging the additional parameters *)

(** X10.  Given the query parameters as the dict [query_params], the term
    and match builders return the clause that holds that dict merged with
    the additional parameters: a key reads its value in the additional
    parameters when they have it, and in the query parameters otherwise. *)
Theorem term_match_merge_precedence
  (index mapping : value) (values : kwargs) (query_params additional : dict) :
  kw_lookup "query_params" values = Some (VDict query_params) ->
  kw_get values "additional_query_params" (VDict []) = VDict additional ->
  dict_wf query_params = true ->
  dict_wf additional = true ->
  TermQueryConstructor_get_query index mapping values
  = Ret (VDict [(VStr "term", VDict (dict_merge query_params additional))]) /\
  MatchQueryConstructor_get_query index mapping values
  = Ret (VDict [(VStr "match", VDict (dict_merge query_params additional))]) /\
  forall k,
    dict_lookup k (dict_merge query_params additional)
    = match dict_lookup k additional with
      | Some v => Some v
      | None => dict_lookup k query_params
      end.
Proof.
  intros Q A Wq Wa.
  assert (G : kw_get values "query_params" (kwargs_value values) = VDict query_params).
  { unfold kw_get. rewrite Q. reflexivity. }
  unfold TermQueryConstructor_get_query, MatchQueryConstructor_get_query.
  rewrite (kw_lookup_nonempty _ _ _ Q), G, A. simpl.
  rewrite (dict_comprehension_copy _ Wq).
  split; [reflexivity |]. split; [reflexivity |].
  intros k. apply dict_lookup_merge. exact Wa.
Qed.

Lemma term_match_merge_precedence_witness :
  dict_wf [(VStr "marks", VInt 44); (VStr "boost", VInt 1)] = true /\
  dict_wf [(VStr "boost", VInt 2)] = true /\
  TermQueryConstructor_get_query (VStr "hinglish11") (VStr "student/_search")
    [("query_params", VDict [(VStr "marks", VInt 44); (VStr "boost", VInt 1)]);
     ("additional_query_params", VDict [(VStr "boost", VInt 2)])]
  = Ret (VDict [(VStr "term", VDict [(VStr "marks", VInt 44); (VStr "boost", VInt 2)])]).
Proof.
  split; [reflexivity |]. split; [reflexivity |].
  exact (proj1 (term_match_merge_precedence (VStr "hinglish11") (VStr "student/_search")
                  [("query_params", VDict [(VStr "marks", VInt 44); (VStr "boost", VInt 1)]);
                   ("additional_query_params", VDict [(VStr "boost", VInt 2)])]
                  [(VStr "marks", VInt 44); (VStr "boost", VInt 1)]
                  [(VStr "boost", VInt 2)] eq_refl eq_refl eq_refl eq_refl)).
Defined.


(** ** The assertions of the nested builder *)

(** X13.  The nested builder tests [path] first: a falsy path fails the
    assertion on the path, with the text of the path in the message, also
    when there is no keyword argument; a truthy path without any keyword
    argument fails the assertion on the values.  No assertion fails in any
    other case. *)
Theorem nested_assertions (index mapping path : value) (values : kwargs) :
  (py_bool path = false ->
   NestedQueryConstructor_get_query index mapping path values
   = Raise (AssertionError ("Invalid path received: " ++ py_str path))) /\
  (py_bool path = true -> values = [] ->
   NestedQueryConstructor_get_query index mapping path values
   = Raise (AssertionError "Invalid values received as argument: {}")) /\
  ((exists msg, NestedQueryConstructor_get_query index mapping path values
                = Raise (AssertionError msg))
   <-> py_bool path = false \/ values = []).
Proof.
  unfold NestedQueryConstructor_get_query.
  split; [intros P; rewrite P; reflexivity |].
  split; [intros P ->; rewrite P; reflexivity |].
  split.
  - intros [msg H].
    destruct (py_bool path); [| left; reflexivity].
    destruct values as [| kv values]; [right; reflexivity |].
    exfalso. revert H. cbn [kw_empty negb py_assert rbind].
    destruct (py_items _) as [items | e1] eqn:I; cbn [rbind];
      [| intros H; injection H as ->; apply py_items_Raise in I; discriminate I].
    destruct (dict_update _ _) as [d | e2] eqn:U; cbn [rbind];
      [discriminate |
       intros H; injection H as ->; apply dict_update_Raise in U; discriminate U].
  - intros [P | ->].
    + rewrite P. eexists; reflexivity.
    + destruct (py_bool path); eexists; reflexivity.
Qed.

(** ** The method of the base class *)

Lemma rbind_Raise_inv {A B : Type} (m : result A) (k : A -> result B) (e : exn) :
  rbind m k = Raise e -> m = Raise e \/ exists a, m = Ret a /\ k a = Raise e.
Proof.
  destruct m as [a | e']; simpl; intros H.
  - right. exists a. split; [reflexivity | exact H].
  - left. injection H as <-. reflexivity.
Qed.

Lemma py_assert_Raise (cond : bool) (msg : string) (e : exn) :
  py_assert cond msg = Raise e -> is_not_implemented e = false.
Proof. destruct cond; simpl; intros H; [discriminate H | injection H as <-; reflexivity]. Qed.

Lemma py_items_implemented (v : value) (e : exn) :
  py_items v = Raise e -> is_not_implemented e = false.
Proof. destruct v; simpl; intros H; try discriminate H; injection H as <-; reflexivity. Qed.

Lemma update_pair_implemented (x : value) (e : exn) :
  update_pair x = Raise e -> is_not_implemented e = false.
Proof.
  destruct x as [| b | n | s | l | d]; simpl.
  - intros H. injection H as <-. reflexivity.
  - intros H. injection H as <-. reflexivity.
  - intros H. injection H as <-. reflexivity.
  - destruct s as [| a [| b [| c s]]]; intros H; try discriminate H;
      injection H as <-; reflexivity.
  - destruct l as [| a [| b [| c l]]]; intros H; try discriminate H;
      injection H as <-; reflexivity.
  - destruct d as [| [a x] [| [b y] [| c d]]]; intros H; try discriminate H;
      injection H as <-; reflexivity.
Qed.

Lemma dict_update_implemented (d : dict) (other : value) (e : exn) :
  dict_update d other = Raise e -> is_not_implemented e = false.
Proof.
  destruct other as [| b | n | s | l | o]; simpl; intros H.
  - injection H as <-. reflexivity.
  - injection H as <-. reflexivity.
  - injection H as <-. reflexivity.
  - destruct s; [discriminate H | injection H as <-; reflexivity].
  - revert d H. induction l as [| x l IH]; simpl; intros d H; [discriminate H |].
    destruct (update_pair x) as [kv | e'] eqn:P; simpl in H.
    + destruct (hashable (fst kv)); [exact (IH _ H) |].
      injection H as <-. reflexivity.
    + injection H as <-. exact (update_pair_implemented _ _ P).
  - discriminate H.
Qed.

Lemma bind_call_implemented (sig : signature) (args : list value) (kw : kwargs) (e : exn) :
  bind_call sig args kw = Raise e -> is_not_implemented e = false.
Proof.
  intros H. destruct (bind_call_Raise _ _ _ _ H) as [why ->]. reflexivity.
Qed.

Lemma construct_implemented (type : value) (kw : kwargs) (e : exn) :
  construct type kw = Raise e -> is_not_implemented e = false.
Proof.
  unfold construct, instantiate. intros H.
  repeat match type of H with
         | context [py_eq_str type ?t] => destruct (py_eq_str type t)
         end;
    try (destruct (kw_empty kw); [discriminate H |]);
    injection H as <-; reflexivity.
Qed.

(** Steps through a body whose failure is known: each part that can fail
    is set apart and its failure is of a kind above. *)
Ltac raise_step H :=
  apply rbind_Raise_inv in H;
  destruct H as [H | [? [_ H]]];
  [first [ exact (py_assert_Raise _ _ _ H)
         | exact (py_items_implemented _ _ H)
         | exact (dict_update_implemented _ _ _ H)
         | exact (bind_call_implemented _ _ _ _ H)
         | exact (construct_implemented _ _ _ H) ] |].

Lemma leaf_bodies_implemented (index mapping : value) (kw : kwargs) (e : exn) :
  (TermQueryConstructor_get_query index mapping kw = Raise e ->
   is_not_implemented e = false) /\
  (MatchQueryConstructor_get_query index mapping kw = Raise e ->
   is_not_implemented e = false) /\
  (forall path, NestedQueryConstructor_get_query index mapping path kw = Raise e ->
                is_not_implemented e = false) /\
  (forall query fields q_type,
      MultiMatchQueryConstructor_get_query index mapping query fields q_type kw = Raise e ->
      is_not_implemented e = false).
Proof.
  repeat split.
  - unfold TermQueryConstructor_get_query. intros H.
    raise_step H. raise_step H. raise_step H. discriminate H.
  - unfold MatchQueryConstructor_get_query. intros H.
    raise_step H. raise_step H. raise_step H. discriminate H.
  - unfold NestedQueryConstructor_get_query. intros path H.
    raise_step H. raise_step H. raise_step H. raise_step H. discriminate H.
  - unfold MultiMatchQueryConstructor_get_query. intros query fields q_type H.
    raise_step H. raise_step H. discriminate H.
Qed.

Lemma conditional_loop_implemented
  (call : class -> list value -> kwargs -> result value) (items : dict) :
  (forall c cfg e, call c [cfg] [] = Raise e -> is_not_implemented e = false) ->
  forall (body : list value) (e : exn),
    conditional_loop call items body = Raise e -> is_not_implemented e = false.
Proof.
  intros C. induction items as [| [t cfg] items IH]; simpl; intros body e H.
  - discriminate H.
  - raise_step H.
    apply rbind_Raise_inv in H. destruct H as [H | [q [_ H]]].
    + exact (C _ _ _ H).
    + exact (IH _ _ H).
Qed.

Lemma mixin_implemented (depth : nat) (self : class) (args : list value) (kw : kwargs)
  (e : exn) :
  get_query_at depth ConditionalQueryMixin self args kw = Raise e ->
  is_not_implemented e = false.
Proof.
  destruct depth as [| depth]; simpl get_query_at; intros H.
  - injection H as <-. reflexivity.
  - raise_step H. unfold ConditionalQueryMixin_get_query in H.
    raise_step H. raise_step H. raise_step H.
    apply rbind_Raise_inv in H. destruct H as [H | [q [_ H]]]; [| discriminate H].
    apply (conditional_loop_implemented _ _) in H; [exact H |].
    intros c cfg e' H'. destruct depth as [| depth].
    + injection H' as <-. reflexivity.
    + destruct (get_query_config_only depth c cfg) as [names E].
      unfold get_query in E. rewrite E in H'. injection H' as <-. reflexivity.
Qed.

(** X14.  No builder that [construct] returns ever raises the
    [NotImplementedError] of [QueryConstructor.get_query]: its class, or
    the mixin that comes first in the combinators, has a [get_query] of
    its own. *)
Theorem constructed_builder_implements
  (type : value) (kw : kwargs) (c : class) (depth : nat) (args : list value)
  (kw' : kwargs) (e : exn) :
  construct type kw = Ret c ->
  get_query depth c args kw' = Raise e ->
  is_not_implemented e = false.
Proof.
  intros C H. apply construct_Ret_table in C. destruct C as [_ I].
  unfold get_query in H.
  destruct depth as [| depth]; [injection H as <-; reflexivity |].
  simpl in I.
  destruct I as [E | [E | [E | [E | [E | [E | [E | []]]]]]]]; injection E as _ <-;
    cbn [get_query_at] in H; raise_step H.
  - exact (proj1 (leaf_bodies_implemented _ _ _ e) H).
  - exact (proj1 (proj2 (leaf_bodies_implemented _ _ _ e)) H).
  - exact (proj2 (proj2 (proj2 (leaf_bodies_implemented _ _ _ e))) _ _ _ H).
  - exact (proj1 (proj2 (proj2 (leaf_bodies_implemented _ _ _ e))) _ H).
  - unfold MustQueryConstructor_get_query in H.
    change (py_super MustQueryConstructor MustQueryConstructor)
      with (Ret ConditionalQueryMixin) in H.
    cbn [rbind] in H.
    apply rbind_Raise_inv in H. destruct H as [H | [q [_ H]]]; [| discriminate H].
    exact (mixin_implemented _ _ _ _ _ H).
  - unfold ShouldQueryConstructor_get_query in H.
    change (py_super ShouldQueryConstructor ShouldQueryConstructor)
      with (Ret ConditionalQueryMixin) in H.
    cbn [rbind] in H.
    apply rbind_Raise_inv in H. destruct H as [H | [q [_ H]]]; [| discriminate H].
    exact (mixin_implemented _ _ _ _ _ H).
  - injection H as <-. reflexivity.
Qed.

Lemma constructed_builder_implements_witness :
  construct (VStr "must") [] = Ret MustQueryConstructor /\
  get_query 3 MustQueryConstructor [VStr "hinglish11"; VStr "student/_search"]
    [("query_types", VDict [(VStr "term", VDict [(VStr "marks", VInt 44)])])]
  = Raise (TypeError (MissingArguments ["mapping"])) /\
  is_not_implemented (TypeError (MissingArguments ["mapping"])) = false.
Proof.
  split; [reflexivity |]. split; [reflexivity |].
  exact (constructed_builder_implements (VStr "must") [] MustQueryConstructor 3
           [VStr "hinglish11"; VStr "student/_search"]
           [("query_types", VDict [(VStr "term", VDict [(VStr "marks", VInt 44)])])]
           _ eq_refl eq_refl).
Defined.

Lemma explicit_query_params_only_witness :
  kw_lookup "query_params"
    [("other_params", VDict [(VStr "size", VInt 100)]);
     ("query_params", VDict [(VStr "marks", VInt 44)])]
  = Some (VDict [(VStr "marks", VInt 44)]) /\
  TermQueryConstructor_get_query (VStr "hinglish11") (VStr "student/_search")
    [("other_params", VDict [(VStr "size", VInt 100)]);
     ("query_params", VDict [(VStr "marks", VInt 44)])]
  = TermQueryConstructor_get_query (VStr "hinglish11") (VStr "student/_search")
      [("query_params", VDict [(VStr "marks", VInt 44)])].
Proof.
  split; [reflexivity |].
  exact (proj1 (explicit_query_params_only (VStr "hinglish11") (VStr "student/_search")
                  (VDict [(VStr "marks", VInt 44)])
                  [("other_params", VDict [(VStr "size", VInt 100)]);
                   ("query_params", VDict [(VStr "marks", VInt 44)])]
                  eq_refl)).
Defined.

(** ** Two ways to give the query parameters *)

(** X15.  Query parameters given as keyword arguments, none of which is
    named [query_params] or [additional_query_params], build the same
    clause as the same parameters given as the dict [query_params]: for
    the term, match and nested builders the two ways of calling agree. *)
Theorem keywords_or_query_params (index mapping : value) (values : kwargs) :
  values <> [] ->
  kw_lookup "query_params" values = None ->
  kw_lookup "additional_query_params" values = None ->
  TermQueryConstructor_get_query index mapping values
  = TermQueryConstructor_get_query index mapping
      [("query_params", kwargs_value values)] /\
  MatchQueryConstructor_get_query index mapping values
  = MatchQueryConstructor_get_query index mapping
      [("query_params", kwargs_value values)] /\
  forall path,
    NestedQueryConstructor_get_query index mapping path values
    = NestedQueryConstructor_get_query index mapping path
        [("query_params", kwargs_value values)].
Proof.
  intros NE Q A.
  assert (E : kw_empty values = false).
  { destruct values; [contradiction NE; reflexivity | reflexivity]. }
  unfold TermQueryConstructor_get_query, MatchQueryConstructor_get_query,
    NestedQueryConstructor_get_query, kw_get.
  rewrite Q, A, E. simpl.
  repeat split.
Qed.

Lemma keywords_or_query_params_witness :
  [("marks", VInt 44); ("name", VStr "Mangu")] <> [] /\
  TermQueryConstructor_get_query (VStr "hinglish11") (VStr "student/_search")
    [("marks", VInt 44); ("name", VStr "Mangu")]
  = TermQueryConstructor_get_query (VStr "hinglish11") (VStr "student/_search")
      [("query_params", VDict [(VStr "marks", VInt 44); (VStr "name", VStr "Mangu")])].
Proof.
  assert (NE : [("marks", VInt 44); ("name", VStr "Mangu")] <> []) by discriminate.
  split; [exact NE |].
  exact (proj1 (keywords_or_query_params (VStr "hinglish11") (VStr "student/_search")
                  [("marks", VInt 44); ("name", VStr "Mangu")] NE eq_refl eq_refl)).
Defined.

(** * What the merges hold *)

Lemma dict_merge_merges (base other : dict) :
  dict_wf other = true -> merges base other (dict_merge base other).
Proof. intros W k. apply dict_lookup_merge. exact W. Qed.

Lemma fold_dict_set_keeps (f : value -> value) (k : value) (items : dict) :
  forall acc : dict,
    dict_lookup k acc <> None ->
    dict_lookup k (fold_left (fun acc kv => dict_set acc (f (fst kv)) (snd kv)) items acc)
    <> None.
Proof.
  induction items as [| [k1 v1] items IH]; simpl; intros acc H; [exact H |].
  apply IH. apply dict_set_keeps. exact H.
Qed.

(** A comprehension has the key made from each of its items. *)
Lemma dict_comprehension_has_key (f : value -> value) (k v : value) (items : dict) :
  In (k, v) items ->
  key_eqb (f k) (f k) = true ->
  dict_lookup (f k) (dict_comprehension f items) <> None.
Proof.
  intros I R. unfold dict_comprehension. generalize (@nil (value * value)).
  induction items as [| [k1 v1] items IH]; simpl; intros acc; [contradiction |].
  destruct I as [E | I].
  - injection E as -> ->. apply fold_dict_set_keeps.
    rewrite dict_lookup_set, R. discriminate.
  - apply IH. exact I.
Qed.

(** ** The nested builder, with what the caller gives *)

(** C9, as amended.  The caller gives a non-empty [path], non-empty query
    parameters, as the dict [query_params] or as the keywords themselves,
    and additional parameters, if any, that are a dict without the key
    query.  Then the nested builder returns the clause whose entry query
    is a dict that has, for every field of the query parameters, the key
    made of the path, a dot and the field; when the texts of the fields
    differ, that dict is exactly one such entry for each field, in order,
    with the value of the field. *)
Theorem nested_rewrites_fields
  (index mapping : value) (path : string) (values : kwargs) (query_params : dict)
  (additional : option dict) :
  path <> "" ->
  query_params <> [] ->
  gives_query_params values query_params ->
  kw_lookup "additional_query_params" values = option_map VDict additional ->
  dict_lookup (VStr "query") (or_empty additional) = None ->
  exists query,
    NestedQueryConstructor_get_query index mapping (VStr path) values
    = Ret (VDict
             [(VStr "nested",
               VDict (dict_merge [(VStr "path", VStr path); (VStr "query", VDict query)]
                        (or_empty additional)))]) /\
    dict_lookup (VStr "query")
      (dict_merge [(VStr "path", VStr path); (VStr "query", VDict query)]
         (or_empty additional))
    = Some (VDict query) /\
    (forall k v, In (k, v) query_params ->
                 dict_lookup (VStr (path ++ "." ++ py_str k)) query <> None) /\
    (NoDup (map (fun kv => py_str (fst kv)) query_params) ->
     query = map (fun kv => (VStr (path ++ "." ++ py_str (fst kv)), snd kv)) query_params).
Proof.
  intros P NE G A Q.
  assert (T : py_bool (VStr path) = true).
  { simpl. destruct (String.eqb_spec path "") as [E | _]; [contradiction | reflexivity]. }
  assert (V : kw_empty values = false).
  { destruct values; [| reflexivity]. exfalso.
    destruct G as [G | [_ G]]; [discriminate G | exact (NE G)]. }
  assert (G' : kw_get values "query_params" (kwargs_value values) = VDict query_params).
  { unfold kw_get. destruct G as [G | [G ->]]; rewrite G; reflexivity. }
  assert (A' : kw_get values "additional_query_params" (VDict [])
               = VDict (or_empty additional)).
  { unfold kw_get. rewrite A. destruct additional; reflexivity. }
  exists (dict_comprehension (format_path_field (VStr path)) query_params).
  split; [| split; [| split]].
  - unfold NestedQueryConstructor_get_query. rewrite T, V, G', A'. reflexivity.
  - rewrite (dict_lookup_merge_None _ _ _ Q). reflexivity.
  - intros k v I.
    apply (dict_comprehension_has_key (format_path_field (VStr path)) k v _ I).
    simpl. apply String.eqb_refl.
  - intros ND.
    apply (dict_comprehension_strings (format_path_field (VStr path))
             (fun k => path ++ "." ++ py_str k)).
    + intros kv _. reflexivity.
    + rewrite <- (map_map (fun kv => py_str (fst kv)) (fun s => path ++ "." ++ s)).
      rewrite <- (map_map (fun s => "." ++ s) (fun s => path ++ s)).
      apply NoDup_map_prefix. apply NoDup_map_prefix. exact ND.
Qed.

Lemma nested_rewrites_fields_witness :
  "student" <> "" /\
  gives_query_params
    [("query_params", VDict [(VStr "marks", VInt 44); (VStr "name", VStr "Mangu")]);
     ("additional_query_params", VDict [(VStr "score_mode", VStr "avg")])]
    [(VStr "marks", VInt 44); (VStr "name", VStr "Mangu")] /\
  dict_lookup (VStr "query") [(VStr "score_mode", VStr "avg")] = None /\
  NoDup (map (fun kv => py_str (fst kv))
           [(VStr "marks", VInt 44); (VStr "name", VStr "Mangu")]) /\
  NestedQueryConstructor_get_query (VStr "hinglish11") (VStr "student/_search")
    (VStr "student")
    [("query_params", VDict [(VStr "marks", VInt 44); (VStr "name", VStr "Mangu")]);
     ("additional_query_params", VDict [(VStr "score_mode", VStr "avg")])]
  = Ret (VDict
           [(VStr "nested",
             VDict [(VStr "path", VStr "student");
                    (VStr "query",
                     VDict [(VStr "student.marks", VInt 44);
                            (VStr "student.name", VStr "Mangu")]);
                    (VStr "score_mode", VStr "avg")])]).
Proof.
  assert (P : "student" <> "") by discriminate.
  assert (NE : [(VStr "marks", VInt 44); (VStr "name", VStr "Mangu")] <> [])
    by discriminate.
  assert (G : gives_query_params
                [("query_params",
                  VDict [(VStr "marks", VInt 44); (VStr "name", VStr "Mangu")]);
                 ("additional_query_params", VDict [(VStr "score_mode", VStr "avg")])]
                [(VStr "marks", VInt 44); (VStr "name", VStr "Mangu")])
    by (left; reflexivity).
  assert (ND : NoDup (map (fun kv => py_str (fst kv))
                        [(VStr "marks", VInt 44); (VStr "name", VStr "Mangu")])).
  { simpl. repeat constructor; simpl; intuition discriminate. }
  split; [exact P |]. split; [exact G |]. split; [reflexivity |]. split; [exact ND |].
  destruct (nested_rewrites_fields (VStr "hinglish11") (VStr "student/_search") "student"
              _ _ (Some [(VStr "score_mode", VStr "avg")]) P NE G eq_refl eq_refl)
    as [query [R [_ [_ E]]]].
  rewrite R, (E ND). reflexivity.
Defined.

(** C9, as stated, fails when the additional parameters have the key
    query: the merge puts their value in the place of the rewritten query
    parameters, and no field is left under query. *)
Lemma nested_query_replaced_by_additional :
  get_query 1 NestedQueryConstructor
    [VStr "hinglish11"; VStr "student/_search"; VStr "student"]
    [("query_params", VDict [(VStr "marks", VInt 44)]);
     ("additional_query_params", VDict [(VStr "query", VInt 0)])]
  = Ret (VDict [(VStr "nested",
                 VDict [(VStr "path", VStr "student"); (VStr "query", VInt 0)])]) /\
  dict_lookup (VStr "query") [(VStr "path", VStr "student"); (VStr "query", VInt 0)]
  <> Some (VDict [(VStr "student.marks", VInt 44)]).
Proof. split; [reflexivity | discriminate]. Qed.

(** ** The multi_match builder, with what the merge holds *)

(** C10.  With an empty list of fields the multi_match builder fails its
    assertion, which is what the specification calls
    InvalidArgumentError.  With a non-empty list it returns, under the key
    multi_match, the dict of query, fields and type merged with the
    additional parameters; the type is cross_fields unless [q_type] is
    given.  This holds with query and fields given by position and given
    as keywords, as the client gives them.  The merged dict reads every
    key in the additional parameters first, and in query, fields and type
    for a key that they lack. *)
Theorem multi_match_builds
  (depth : nat) (index mapping query : value) (fields : list value)
  (q_type : option value) (additional : option dict) :
  get_query (S depth) MultiMatchQueryConstructor [index; mapping; query; VList fields]
    (multi_match_keywords q_type additional)
  = match fields with
    | [] => Raise (AssertionError "Invalid fields received as argument: []")
    | _ => Ret (spec_multi_match_clause query fields
                  (default q_type (VStr "cross_fields")) (or_empty additional))
    end /\
  get_query (S depth) MultiMatchQueryConstructor [index; mapping]
    (("query", query) :: ("fields", VList fields) :: multi_match_keywords q_type additional)
  = match fields with
    | [] => Raise (AssertionError "Invalid fields received as argument: []")
    | _ => Ret (spec_multi_match_clause query fields
                  (default q_type (VStr "cross_fields")) (or_empty additional))
    end /\
  exists clause,
    spec_multi_match_clause query fields (default q_type (VStr "cross_fields"))
      (or_empty additional)
    = VDict [(VStr "multi_match", VDict clause)] /\
    (additional = None ->
     clause = [(VStr "query", query); (VStr "fields", VList fields);
               (VStr "type", default q_type (VStr "cross_fields"))]) /\
    (dict_wf (or_empty additional) = true ->
     merges [(VStr "query", query); (VStr "fields", VList fields);
             (VStr "type", default q_type (VStr "cross_fields"))]
       (or_empty additional) clause).
Proof.
  split; [| split].
  - destruct q_type as [t |], additional as [a |], fields as [| f fields]; reflexivity.
  - destruct q_type as [t |], additional as [a |], fields as [| f fields]; reflexivity.
  - eexists. split; [reflexivity |]. split.
    + intros ->. reflexivity.
    + apply dict_merge_merges.
Qed.

Lemma multi_match_builds_witness :
  dict_wf [(VStr "type", VStr "phrase"); (VStr "operator", VStr "and")] = true /\
  get_query 1 MultiMatchQueryConstructor
    [VStr "hinglish11"; VStr "student/_search"; VStr "Mangu Singh";
     VList [VStr "name^2"; VStr "school^1.2"]]
    [("additional_query_params",
      VDict [(VStr "type", VStr "phrase"); (VStr "operator", VStr "and")])]
  = Ret (VDict
           [(VStr "multi_match",
             VDict [(VStr "query", VStr "Mangu Singh");
                    (VStr "fields", VList [VStr "name^2"; VStr "school^1.2"]);
                    (VStr "type", VStr "phrase");
                    (VStr "operator", VStr "and")])]) /\
  dict_lookup (VStr "operator")
    [(VStr "query", VStr "Mangu Singh");
     (VStr "fields", VList [VStr "name^2"; VStr "school^1.2"]);
     (VStr "type", VStr "phrase");
     (VStr "operator", VStr "and")]
  = Some (VStr "and").
Proof.
  split; [reflexivity |]. split.
  - exact (proj1 (multi_match_builds 0 (VStr "hinglish11") (VStr "student/_search")
                    (VStr "Mangu Singh") [VStr "name^2"; VStr "school^1.2"] None
                    (Some [(VStr "type", VStr "phrase"); (VStr "operator", VStr "and")]))).
  - destruct (proj2 (proj2 (multi_match_builds 0 (VStr "hinglish11")
                              (VStr "student/_search") (VStr "Mangu Singh")
                              [VStr "name^2"; VStr "school^1.2"] None
                              (Some [(VStr "type", VStr "phrase");
                                     (VStr "operator", VStr "and")])))) as [clause [E [_ M]]].
    injection E as <-.
    rewrite (M eq_refl (VStr "operator")). reflexivity.
Defined.

(** ** The requests of the client, with what the merges hold *)

(** X6.  The multi_match method of the client, given a non-empty list of
    fields (by position or as a keyword), builds a GET request to
    host:port/index/mapping whose body holds the multi_match clause under
    the key query, merged with [other_params]: the body reads every key in
    [other_params] first and else under query, and the clause reads every
    key in the additional parameters first and else in query, fields and
    type, so that [other_params] stays out of the clause.  With an empty
    list of fields the assertion of the builder fails and no request is
    built. *)
Theorem client_multi_match_request
  (depth : nat) (self : ElasticSearchQueryEngine) (index mapping query f : value)
  (fields : list value) (q_type : option value) (additional other : option dict) :
  dict_wf (or_empty additional) = true ->
  dict_wf (or_empty other) = true ->
  multi_match (S depth) self [index; mapping; query; VList (f :: fields)]
    (multi_match_keywords q_type additional
       ++ keyword "other_params" (option_map VDict other))%list
  = Ret {| method_cb := "get";
           url := py_str (_host self) ++ ":" ++ py_str (_port self) ++ "/"
                  ++ py_str index ++ "/" ++ py_str mapping;
           headers := VDict [];
           json := VDict (dict_merge
                            [(VStr "query",
                              spec_multi_match_clause query (f :: fields)
                                (default q_type (VStr "cross_fields"))
                                (or_empty additional))]
                            (or_empty other)) |} /\
  multi_match (S depth) self [index; mapping; query]
    (("fields", VList (f :: fields))
       :: multi_match_keywords q_type additional
       ++ keyword "other_params" (option_map VDict other))%list
  = multi_match (S depth) self [index; mapping; query; VList (f :: fields)]
      (multi_match_keywords q_type additional
         ++ keyword "other_params" (option_map VDict other))%list /\
  merges [(VStr "query",
           spec_multi_match_clause query (f :: fields)
             (default q_type (VStr "cross_fields")) (or_empty additional))]
    (or_empty other)
    (dict_merge
       [(VStr "query",
         spec_multi_match_clause query (f :: fields)
           (default q_type (VStr "cross_fields")) (or_empty additional))]
       (or_empty other)) /\
  (exists clause,
      spec_multi_match_clause query (f :: fields)
        (default q_type (VStr "cross_fields")) (or_empty additional)
      = VDict [(VStr "multi_match", VDict clause)] /\
      merges [(VStr "query", query); (VStr "fields", VList (f :: fields));
              (VStr "type", default q_type (VStr "cross_fields"))]
        (or_empty additional) clause) /\
  multi_match (S depth) self [index; mapping; query; VList []]
    (multi_match_keywords q_type additional
       ++ keyword "other_params" (option_map VDict other))%list
  = Raise (AssertionError "Invalid fields received as argument: []").
Proof.
  intros Wa Wo.
  split; [| split; [| split; [| split]]].
  - destruct q_type as [t |], additional as [a |], other as [o |]; reflexivity.
  - destruct q_type as [t |], additional as [a |], other as [o |]; reflexivity.
  - apply dict_merge_merges. exact Wo.
  - eexists. split; [reflexivity |]. apply dict_merge_merges. exact Wa.
  - destruct q_type as [t |], additional as [a |], other as [o |]; reflexivity.
Qed.

Lemma client_multi_match_request_witness :
  dict_wf [(VStr "operator", VStr "and")] = true /\
  dict_wf [(VStr "size", VInt 100)] = true /\
  multi_match 1 {| _host := VStr "http://localhost"; _port := VInt 9200 |}
    [VStr "hinglish11"; VStr "student/_search"; VStr "Mangu Singh";
     VList [VStr "name^2"; VStr "school^1.2"]]
    [("additional_query_params", VDict [(VStr "operator", VStr "and")]);
     ("other_params", VDict [(VStr "size", VInt 100)])]
  = Ret {| method_cb := "get";
           url := "http://localhost:9200/hinglish11/student/_search";
           headers := VDict [];
           json := VDict
                     [(VStr "query",
                       VDict [(VStr "multi_match",
                               VDict [(VStr "query", VStr "Mangu Singh");
                                      (VStr "fields",
                                       VList [VStr "name^2"; VStr "school^1.2"]);
                                      (VStr "type", VStr "cross_fields");
                                      (VStr "operator", VStr "and")])]);
                      (VStr "size", VInt 100)] |}.
Proof.
  split; [reflexivity |]. split; [reflexivity |].
  exact (proj1 (client_multi_match_request 0
                  {| _host := VStr "http://localhost"; _port := VInt 9200 |}
                  (VStr "hinglish11") (VStr "student/_search") (VStr "Mangu Singh")
                  (VStr "name^2") [VStr "school^1.2"] None
                  (Some [(VStr "operator", VStr "and")]) (Some [(VStr "size", VInt 100)])
                  eq_refl eq_refl)).
Defined.

(** The requests of the term and match methods, as the bodies of the
    builder and of [_query] make them. *)
Lemma client_term_match_request_copy
  (depth : nat) (self : ElasticSearchQueryEngine) (index mapping : value)
  (query_params : dict) (additional other : option dict) (tag : string) :
  tag = "term" \/ tag = "match" ->
  query_method tag (S depth) self [index; mapping]
    (("query_params", VDict query_params)
       :: keyword "additional_query_params" (option_map VDict additional)
       ++ keyword "other_params" (option_map VDict other))%list
  = Ret {| method_cb := "get";
           url := py_str (_host self) ++ ":" ++ py_str (_port self) ++ "/"
                  ++ py_str index ++ "/" ++ py_str mapping;
           headers := VDict [];
           json := VDict (dict_merge
                            [(VStr "query",
                              VDict [(VStr tag,
                                      VDict (dict_merge
                                               (dict_comprehension (fun col => col)
                                                  query_params)
                                               (or_empty additional)))])]
                            (or_empty other)) |}.
Proof.
  intros [-> | ->]; destruct additional as [a |], other as [o |]; reflexivity.
Qed.

(** X7.  The term and match methods of the client, given the query
    parameters as the dict [query_params], build a GET request to
    host:port/index/mapping whose body holds under the key query the term
    (or match) clause: the clause reads every key in the additional
    parameters first and else in [query_params], the body reads every key
    in [other_params] first and else under query, and [other_params]
    stays out of the clause. *)
Theorem client_term_match_request
  (depth : nat) (self : ElasticSearchQueryEngine) (index mapping : value)
  (query_params : dict) (additional other : option dict) :
  dict_wf query_params = true ->
  dict_wf (or_empty additional) = true ->
  dict_wf (or_empty other) = true ->
  term_query (S depth) self [index; mapping]
    (("query_params", VDict query_params)
       :: keyword "additional_query_params" (option_map VDict additional)
       ++ keyword "other_params" (option_map VDict other))%list
  = Ret {| method_cb := "get";
           url := py_str (_host self) ++ ":" ++ py_str (_port self) ++ "/"
                  ++ py_str index ++ "/" ++ py_str mapping;
           headers := VDict [];
           json := VDict (dict_merge
                            [(VStr "query",
                              VDict [(VStr "term",
                                      VDict (dict_merge query_params
                                               (or_empty additional)))])]
                            (or_empty other)) |} /\
  match_ (S depth) self [index; mapping]
    (("query_params", VDict query_params)
       :: keyword "additional_query_params" (option_map VDict additional)
       ++ keyword "other_params" (option_map VDict other))%list
  = Ret {| method_cb := "get";
           url := py_str (_host self) ++ ":" ++ py_str (_port self) ++ "/"
                  ++ py_str index ++ "/" ++ py_str mapping;
           headers := VDict [];
           json := VDict (dict_merge
                            [(VStr "query",
                              VDict [(VStr "match",
                                      VDict (dict_merge query_params
                                               (or_empty additional)))])]
                            (or_empty other)) |} /\
  merges query_params (or_empty additional)
    (dict_merge query_params (or_empty additional)) /\
  forall tag,
    merges [(VStr "query",
             VDict [(VStr tag, VDict (dict_merge query_params (or_empty additional)))])]
      (or_empty other)
      (dict_merge
         [(VStr "query",
           VDict [(VStr tag, VDict (dict_merge query_params (or_empty additional)))])]
         (or_empty other)).
Proof.
  intros Wq Wa Wo.
  split; [| split; [| split]].
  - unfold term_query.
    rewrite (client_term_match_request_copy depth self index mapping query_params
               additional other "term" (or_introl eq_refl)).
    rewrite (dict_comprehension_copy _ Wq). reflexivity.
  - unfold match_.
    rewrite (client_term_match_request_copy depth self index mapping query_params
               additional other "match" (or_intror eq_refl)).
    rewrite (dict_comprehension_copy _ Wq). reflexivity.
  - apply dict_merge_merges. exact Wa.
  - intros tag. apply dict_merge_merges. exact Wo.
Qed.

Lemma client_term_match_request_witness :
  dict_wf [(VStr "marks", VInt 44); (VStr "boost", VInt 1)] = true /\
  dict_wf [(VStr "boost", VInt 2)] = true /\
  dict_wf [(VStr "size", VInt 100)] = true /\
  term_query 1 {| _host := VStr "http://localhost"; _port := VInt 9200 |}
    [VStr "hinglish11"; VStr "student/_search"]
    [("query_params", VDict [(VStr "marks", VInt 44); (VStr "boost", VInt 1)]);
     ("additional_query_params", VDict [(VStr "boost", VInt 2)]);
     ("other_params", VDict [(VStr "size", VInt 100)])]
  = Ret {| method_cb := "get";
           url := "http://localhost:9200/hinglish11/student/_search";
           headers := VDict [];
           json := VDict
                     [(VStr "query",
                       VDict [(VStr "term",
                               VDict [(VStr "marks", VInt 44); (VStr "boost", VInt 2)])]);
                      (VStr "size", VInt 100)] |}.
Proof.
  split; [reflexivity |]. split; [reflexivity |]. split; [reflexivity |].
  exact (proj1 (client_term_match_request 0
                  {| _host := VStr "http://localhost"; _port := VInt 9200 |}
                  (VStr "hinglish11") (VStr "student/_search")
                  [(VStr "marks", VInt 44); (VStr "boost", VInt 1)]
                  (Some [(VStr "boost", VInt 2)]) (Some [(VStr "size", VInt 100)])
                  eq_refl eq_refl eq_refl)).
Defined.
